(** * Deep Logistics website: the page script [main/static/main/js/script.js]

    A shallow embedding of the page script and the proofs of its
    specification.  The script has three parts:

    - the splash controller (a [load] listener with two nested timers),
    - the tracking form controller (a [submit] listener that fetches the
      current page with a query parameter and renders the JSON reply),
    - the homepage search box (a [submit] listener that redirects).

    The script runs inside a browser.  Everything the script does is an
    effect on the browser: it reads and writes DOM elements, registers
    listeners and timers, starts a request, writes to the console, assigns
    the location.  The embedding therefore threads one [world] through a
    small state-and-exception monad [JS]; every primitive appends what it
    did, with the time at which it did it, to the world's [trace].

    Conventions.
    - A JavaScript string is a [string]; the script only concatenates.
    - The document is a flat map from ids to elements, and an element
      reference is the element's id.  [innerHTML] holds the string that
      was assigned to it; the child elements that such an assignment
      removes from the panel and creates in it are not modelled. *)

From stdpp Require Import base strings gmap list.
From Stdlib Require Import Ascii NArith Lia.

Set Warnings "-register-all".
Open Scope string_scope.
Open Scope list_scope.

(** ** Strings *)

(** The double quote and the line feed, which the templates of the script
    contain. *)
Definition dquote : string := String (Ascii.ascii_of_nat 34) EmptyString.
Definition newline : string := String (Ascii.ascii_of_nat 10) EmptyString.

(** [spaces n]: the indentation of a template line. *)
Fixpoint spaces (n : nat) : string :=
  match n with
  | O => ""
  | S k => String " "%char (spaces k)
  end.

(** [contains hay needle]: [needle] occurs in [hay], character for
    character. *)
Definition contains (hay needle : string) : Prop :=
  exists pre post : string, hay = pre +:+ needle +:+ post.

(** [occurs_at n hay needle]: [needle] occurs in [hay] at offset [n]
    (executable). *)
Definition occurs_at (n : nat) (hay needle : string) : bool :=
  String.eqb (String.substring n (String.length needle) hay) needle.

(** JavaScript truthiness of a string: every string but the empty one. *)
Definition truthy (s : string) : bool :=
  match s with
  | EmptyString => false
  | String _ _ => true
  end.

(** ** Values

    What [response.json()] can produce, plus [undefined], which reading an
    absent property produces.  A number is kept as its [Number::toString]
    rendering, the only observation the script makes of a number. *)
Inductive jsval : Type :=
| VUndefined
| VNull
| VBool (b : bool)
| VNumber (rendering : string)
| VString (s : string)
| VArray (items : list jsval)
| VObject (props : list (string * jsval)).

(** Own-property lookup in an object literal: the first binding of the
    key. *)
Fixpoint own_property (p : string) (props : list (string * jsval)) : option jsval :=
  match props with
  | [] => None
  | (k, v) :: rest => if String.eqb k p then Some v else own_property p rest
  end.

(** [ToString], the conversion a template literal applies to each
    substitution; [None] when it throws.  An array is joined with commas,
    its [null] and [undefined] items rendered empty.  A plain object
    renders as [[object Object]] through [Object.prototype.toString],
    unless it has an own [toString] key: a value out of JSON is never
    callable, so the conversion then finds no method that gives a
    primitive and throws a [TypeError]. *)
Fixpoint ToString (v : jsval) : option string :=
  match v with
  | VUndefined => Some "undefined"
  | VNull => Some "null"
  | VBool true => Some "true"
  | VBool false => Some "false"
  | VNumber rendering => Some rendering
  | VString s => Some s
  | VArray items =>
      (fix join (l : list jsval) : option string :=
         match l with
         | [] => Some ""
         | x :: rest =>
             match match x with
                   | VUndefined | VNull => Some ""
                   | _ => ToString x
                   end with
             | None => None
             | Some item =>
                 match rest with
                 | [] => Some item
                 | _ :: _ =>
                     match join rest with
                     | Some tail => Some (item +:+ "," +:+ tail)
                     | None => None
                     end
                 end
             end
         end) items
  | VObject props =>
      match own_property "toString" props with
      | Some _ => None
      | None => Some "[object Object]"
      end
  end.

(** [v === s] for a string literal [s]: strict equality never converts. *)
Definition strict_equals_string (v : jsval) (s : string) : bool :=
  match v with
  | VString t => String.eqb t s
  | _ => false
  end.

(** ** Errors *)

(** What a promise can be rejected with, or a callback can throw:
    - [FetchRejected reason]: [fetch] itself failed (network down, aborted);
    - [SyntaxError body]: [response.json()] could not parse [body];
    - [TypeError p]: property [p] was read from, or written to, [null] or
      [undefined];
    - [NotPrimitive]: the [TypeError] of converting to a string an object
      that has no method to convert it. *)
Inductive error : Type :=
| FetchRejected (reason : string)
| SyntaxError (body : string)
| TypeError (p : string)
| NotPrimitive.

(** The outcome of a computation: a value, or an exception. *)
Inductive result (A : Type) : Type :=
| Ok (a : A)
| Throw (e : error).
Arguments Ok {A} a.
Arguments Throw {A} e.

(** ** The browser *)

(** An element, as far as the script touches one: the [value] of an input,
    the [innerHTML] of the result panel, the inline [style.opacity] and
    [style.display] of the splash screen. *)
Record element : Type := Element {
  el_value : string;
  el_innerHTML : string;
  el_opacity : string;
  el_display : string
}.

(** The two timer callbacks of the splash controller, each closed over
    [splashScreen]. *)
Inductive callback : Type :=
| SplashFade (splashScreen : string)
| SplashHide (splashScreen : string).

(** The two submit listeners. *)
Inductive listener : Type :=
| TrackingSubmit
| HomeSubmit.

(** The promise chain [.then(...).then(...).catch(...)] attached to a
    request, closed over [resultDiv] ([None] when [getElementById] returned
    [null]). *)
Inductive continuation : Type :=
| TrackingReply (resultDiv : option string).

(** Where the page is going, if anywhere: the script assigned
    [window.location.href], or the browser submitted a form whose submit
    event was not cancelled. *)
Inductive navigation : Type :=
| ScriptNavigation (url : string)
| FormSubmission (form : string).

(** A request: [fetch(url)], called without an init object, makes a GET
    request. *)
Record request : Type := Request {
  req_method : string;
  req_url : string
}.

(** How a request ends: the promise of [fetch] is rejected, or fulfilled
    with a response that has a body. *)
Inductive outcome : Type :=
| Rejected (reason : string)
| Fulfilled (body : string).

(** What the script does to the browser, one constructor per primitive;
    [EUncaught] is the browser reporting an exception nobody caught. *)
Inductive effect : Type :=
| EPreventDefault
| EGetElementById (id : string)
| EReadValue (id : string)
| EReadPathname
| EFetch (r : request)
| ESetInnerHTML (id html : string)
| EConsoleError (label : string) (e : error)
| ESetHref (url : string)
| ESetTimeout (cb : callback) (delay : N)
| ESetOpacity (id v : string)
| ESetDisplay (id v : string)
| EAddEventListener (id : string) (l : listener)
| EUncaught (e : error).

(** The browser as the script sees it: the elements by id, the location
    and where the page is going, the flag of the event being dispatched,
    the listeners, requests and timers the script has registered, the
    clock (in milliseconds), and the log of effects. *)
Record world : Type := World {
  document : gmap string element;
  pathname : string;
  going : option navigation;
  defaultPrevented : bool;
  listeners : list (string * listener);
  inflight : list (request * continuation);
  now : N;
  timers : list (N * callback);
  trace : list (N * effect)
}.

Definition set_document (d : gmap string element) (w : world) : world :=
  World d (pathname w) (going w) (defaultPrevented w) (listeners w)
        (inflight w) (now w) (timers w) (trace w).
Definition set_going (g : option navigation) (w : world) : world :=
  World (document w) (pathname w) g (defaultPrevented w) (listeners w)
        (inflight w) (now w) (timers w) (trace w).
Definition set_defaultPrevented (b : bool) (w : world) : world :=
  World (document w) (pathname w) (going w) b (listeners w)
        (inflight w) (now w) (timers w) (trace w).
Definition set_listeners (l : list (string * listener)) (w : world) : world :=
  World (document w) (pathname w) (going w) (defaultPrevented w) l
        (inflight w) (now w) (timers w) (trace w).
Definition set_inflight (l : list (request * continuation)) (w : world) : world :=
  World (document w) (pathname w) (going w) (defaultPrevented w) (listeners w)
        l (now w) (timers w) (trace w).
Definition set_now (t : N) (w : world) : world :=
  World (document w) (pathname w) (going w) (defaultPrevented w) (listeners w)
        (inflight w) t (timers w) (trace w).
Definition set_timers (l : list (N * callback)) (w : world) : world :=
  World (document w) (pathname w) (going w) (defaultPrevented w) (listeners w)
        (inflight w) (now w) l (trace w).

(** Every effect is logged with the time at which it happens. *)
Definition log (e : effect) (w : world) : world :=
  World (document w) (pathname w) (going w) (defaultPrevented w) (listeners w)
        (inflight w) (now w) (timers w) (trace w ++ [(now w, e)]).

(** ** The monad *)

Definition JS (A : Type) : Type := world -> result A * world.

Definition js_ret {A : Type} (a : A) : JS A := fun w => (Ok a, w).

Definition js_bind {A B : Type} (m : JS A) (k : A -> JS B) : JS B :=
  fun w =>
    match m w with
    | (Ok a, w') => k a w'
    | (Throw e, w') => (Throw e, w')
    end.

Definition js_throw {A : Type} (e : error) : JS A := fun w => (Throw e, w).

(** [promise.catch(handler)]: the handler runs on the rejection, in the
    world the rejected stage left. *)
Definition js_catch {A : Type} (m : JS A) (handler : error -> JS A) : JS A :=
  fun w =>
    match m w with
    | (Ok a, w') => (Ok a, w')
    | (Throw e, w') => handler e w'
    end.

Declare Scope js_scope.
Delimit Scope js_scope with js.
Notation "'let*' x ':=' m 'in' k" := (js_bind m (fun x => k))
  (at level 10, x name, m at level 100, k at level 200) : js_scope.
Notation "m ';;;' k" := (js_bind m (fun _ => k))
  (at level 100, k at level 200, right associativity) : js_scope.
Open Scope js_scope.

(** The world a computation leaves. *)
Definition exec {A : Type} (m : JS A) (w : world) : world := snd (m w).

(** An exception that escapes a listener, a timer callback or a promise
    chain is reported by the browser and dropped. *)
Definition report {A : Type} (m : JS A) (w : world) : world :=
  match m w with
  | (Ok _, w') => w'
  | (Throw e, w') => log (EUncaught e) w'
  end.

(** ** The primitives the script calls *)

(** [e.preventDefault()] *)
Definition preventDefault : JS unit :=
  fun w => (Ok tt, log EPreventDefault (set_defaultPrevented true w)).

(** [document.getElementById(id)]: the element, or [null]. *)
Definition getElementById (id : string) : JS (option string) :=
  fun w =>
    (Ok (match document w !! id with
         | Some _ => Some id
         | None => None
         end),
     log (EGetElementById id) w).

(** [el.value]: a [TypeError] when [el] is [null].  (No step of the model
    removes an id from the document, so the reference of a found element
    stays valid; the empty string stands for the value of a stale one.) *)
Definition read_value (el : option string) : JS string :=
  fun w =>
    match el with
    | None => (Throw (TypeError "value"), w)
    | Some id =>
        (Ok (match document w !! id with
             | Some e => el_value e
             | None => ""
             end),
         log (EReadValue id) w)
    end.

(** [window.location.pathname] *)
Definition location_pathname : JS string :=
  fun w => (Ok (pathname w), log EReadPathname w).

(** [fetch(url)] with the chain [k] attached to the promise it returns: a
    GET request (no init object is passed) that stays in flight until the
    browser settles it. *)
Definition fetch (url : string) (k : continuation) : JS unit :=
  fun w =>
    let r := Request "GET" url in
    (Ok tt, log (EFetch r) (set_inflight (inflight w ++ [(r, k)]) w)).

Definition with_innerHTML (html : string) (e : element) : element :=
  Element (el_value e) html (el_opacity e) (el_display e).
Definition with_opacity (v : string) (e : element) : element :=
  Element (el_value e) (el_innerHTML e) v (el_display e).
Definition with_display (v : string) (e : element) : element :=
  Element (el_value e) (el_innerHTML e) (el_opacity e) v.

(** [el.innerHTML = html]: a [TypeError] when [el] is [null]. *)
Definition set_innerHTML (el : option string) (html : string) : JS unit :=
  fun w =>
    match el with
    | None => (Throw (TypeError "innerHTML"), w)
    | Some id =>
        (Ok tt,
         log (ESetInnerHTML id html)
             (set_document (alter (with_innerHTML html) id (document w)) w))
    end.

(** [el.style.opacity = v] and [el.style.display = v], on an element that
    was found. *)
Definition set_opacity (id v : string) : JS unit :=
  fun w =>
    (Ok tt,
     log (ESetOpacity id v)
         (set_document (alter (with_opacity v) id (document w)) w)).
Definition set_display (id v : string) : JS unit :=
  fun w =>
    (Ok tt,
     log (ESetDisplay id v)
         (set_document (alter (with_display v) id (document w)) w)).

(** [console.error(label, e)] *)
Definition console_error (label : string) (e : error) : JS unit :=
  fun w => (Ok tt, log (EConsoleError label e) w).

(** [window.location.href = url]: the page starts to navigate. *)
Definition set_location_href (url : string) : JS unit :=
  fun w => (Ok tt, log (ESetHref url) (set_going (Some (ScriptNavigation url)) w)).

(** [setTimeout(cb, delay)]: [cb] is due [delay] milliseconds from now. *)
Definition setTimeout (cb : callback) (delay : N) : JS unit :=
  fun w =>
    (Ok tt,
     log (ESetTimeout cb delay)
         (set_timers (timers w ++ [((now w + delay)%N, cb)]) w)).

(** [el.addEventListener('submit', l)] *)
Definition addEventListener (id : string) (l : listener) : JS unit :=
  fun w =>
    (Ok tt, log (EAddEventListener id l) (set_listeners (listeners w ++ [(id, l)]) w)).

(** [v.p] where it does not throw: the own property of an object, or
    [undefined].  On a boolean, a number, a string or an array the model
    answers [undefined], which is right for the nine names the script
    reads: none of them is inherited from a prototype. *)
Definition field (v : jsval) (p : string) : jsval :=
  match v with
  | VObject props =>
      match own_property p props with
      | Some x => x
      | None => VUndefined
      end
  | _ => VUndefined
  end.

(** [null] and [undefined], the values without properties. *)
Definition nullish (v : jsval) : bool :=
  match v with
  | VUndefined | VNull => true
  | _ => false
  end.

(** [v.p]: a [TypeError] on [null] and [undefined]. *)
Definition get_property (v : jsval) (p : string) : JS jsval :=
  match v with
  | VUndefined | VNull => js_throw (TypeError p)
  | _ => js_ret (field v p)
  end.

(** The conversion of one substitution of a template literal. *)
Definition to_string (v : jsval) : JS string :=
  match ToString v with
  | Some s => js_ret s
  | None => js_throw NotPrimitive
  end.

(** ** The script *)

(** *** Splash controller (script.js, lines 2-13) *)

(** The [load] listener. *)
Definition on_load : JS unit :=
  let* splashScreen := getElementById "splash-screen" in
  match splashScreen with
  | Some el => setTimeout (SplashFade el) 3000
  | None => js_ret tt
  end.

(** The bodies of the two arrow functions handed to [setTimeout]. *)
Definition run_callback (cb : callback) : JS unit :=
  match cb with
  | SplashFade splashScreen =>
      set_opacity splashScreen "0" ;;;
      setTimeout (SplashHide splashScreen) 1000
  | SplashHide splashScreen =>
      set_display splashScreen "none"
  end.

(** *** Tracking form controller (script.js, lines 19-52) *)

(** The template literal of the success branch (lines 32-42), as a function
    of the strings substituted into it. *)
Definition success_template
    (consignment_number status origin destination
     current_location estimated_delivery updated_at : string) : string :=
  newline +:+ spaces 28 +:+
  "<div class=" +:+ dquote +:+ "alert alert-success" +:+ dquote +:+ ">" +:+
  newline +:+ spaces 32 +:+
  "<h4>Tracking Details for " +:+ consignment_number +:+ "</h4>" +:+
  newline +:+ spaces 32 +:+
  "<p><strong>Status:</strong> " +:+ status +:+ "</p>" +:+
  newline +:+ spaces 32 +:+
  "<p><strong>Origin:</strong> " +:+ origin +:+ "</p>" +:+
  newline +:+ spaces 32 +:+
  "<p><strong>Destination:</strong> " +:+ destination +:+ "</p>" +:+
  newline +:+ spaces 32 +:+
  "<p><strong>Current Location:</strong> " +:+ current_location +:+ "</p>" +:+
  newline +:+ spaces 32 +:+
  "<p><strong>Estimated Delivery:</strong> " +:+ estimated_delivery +:+ "</p>" +:+
  newline +:+ spaces 32 +:+
  "<p><em>Last Updated: " +:+ updated_at +:+ "</em></p>" +:+
  newline +:+ spaces 28 +:+
  "</div>" +:+
  newline +:+ spaces 24.

(** Evaluating that template literal: each substitution is read and
    converted to a string, in order.  The first read throws when [c] is
    [null] or [undefined]; a conversion throws on a value that has none. *)
Definition success_panel (c : jsval) : JS string :=
  let* v := get_property c "consignment_number" in
  let* consignment_number := to_string v in
  let* v := get_property c "status" in
  let* status := to_string v in
  let* v := get_property c "origin" in
  let* origin := to_string v in
  let* v := get_property c "destination" in
  let* destination := to_string v in
  let* v := get_property c "current_location" in
  let* current_location := to_string v in
  let* v := get_property c "estimated_delivery" in
  let* estimated_delivery := to_string v in
  let* v := get_property c "updated_at" in
  let* updated_at := to_string v in
  js_ret (success_template consignment_number status origin destination
                           current_location estimated_delivery updated_at).

(** The template literal of the other branch (line 44), as a function of
    the string substituted into it. *)
Definition failure_panel (message : string) : string :=
  "<div class=" +:+ dquote +:+ "alert alert-danger" +:+ dquote +:+ ">" +:+
  message +:+ "</div>".

(** The string of the catch branch (line 49). *)
Definition error_panel : string :=
  "<div class=" +:+ dquote +:+ "alert alert-danger" +:+ dquote +:+ ">" +:+
  "An error occurred. Please try again." +:+ "</div>".

(** The second [then] callback, [data => { ... }] (lines 29-46). *)
Definition on_data (resultDiv : option string) (data : jsval) : JS unit :=
  let* status := get_property data "status" in
  if strict_equals_string status "success" then
    let* c := get_property data "consignment" in
    let* html := success_panel c in
    set_innerHTML resultDiv html
  else
    let* v := get_property data "message" in
    let* message := to_string v in
    set_innerHTML resultDiv (failure_panel message).

(** The [catch] callback, [error => { ... }] (lines 47-50). *)
Definition on_error (resultDiv : option string) (error : error) : JS unit :=
  console_error "Error:" error ;;;
  set_innerHTML resultDiv error_panel.

Section Tracking.

(** [JSON.parse], as [response.json()] applies it to the body: the
    browser's parser, whatever it accepts. *)
Variable JSON_parse : string -> option jsval.

(** The promise [fetch] returned, settled with [o]. *)
Definition fetch_settled (o : outcome) : JS string :=
  match o with
  | Rejected reason => js_throw (FetchRejected reason)
  | Fulfilled body => js_ret body
  end.

(** The first [then] callback, [response => response.json()]. *)
Definition response_json (body : string) : JS jsval :=
  match JSON_parse body with
  | Some data => js_ret data
  | None => js_throw (SyntaxError body)
  end.

(** The whole chain, once the request has ended with [o]: a rejection at
    any stage skips to the [catch] callback. *)
Definition tracking_reply (resultDiv : option string) (o : outcome) : JS unit :=
  js_catch
    (let* response := fetch_settled o in
     let* data := response_json response in
     on_data resultDiv data)
    (on_error resultDiv).

(** The error the chain starts from when [o] brings no data: the
    rejection of [fetch], or that of [response.json()]. *)
Definition failure_of (o : outcome) : option error :=
  match o with
  | Rejected reason => Some (FetchRejected reason)
  | Fulfilled body =>
      match JSON_parse body with
      | Some _ => None
      | None => Some (SyntaxError body)
      end
  end.

Definition run_continuation (k : continuation) (o : outcome) : JS unit :=
  match k with
  | TrackingReply resultDiv => tracking_reply resultDiv o
  end.

(** The browser settles the [i]-th request in flight with [o] and runs its
    chain; a rejection the chain does not handle is reported.  [None]
    when there is no such request. *)
Definition settle (i : nat) (o : outcome) (w : world) : option world :=
  match inflight w !! i with
  | Some (_, k) =>
      Some (report (run_continuation k o) (set_inflight (delete i (inflight w)) w))
  | None => None
  end.

End Tracking.

(** The submit listener of the tracking form (lines 21-51). *)
Definition tracking_submit : JS unit :=
  preventDefault ;;;
  let* input := getElementById "consignment_number" in
  let* consignmentNumber := read_value input in
  let* resultDiv := getElementById "tracking-result" in
  let* path := location_pathname in
  fetch (path +:+ "?consignment_number=" +:+ consignmentNumber)
        (TrackingReply resultDiv).

(** *** Homepage search box (script.js, lines 55-65) *)

(** The submit listener of the homepage form (lines 57-64). *)
Definition home_submit : JS unit :=
  preventDefault ;;;
  let* input := getElementById "home-tracking-id" in
  let* trackingId := read_value input in
  if truthy trackingId then
    set_location_href ("/track-consignment/?consignment_number=" +:+ trackingId)
  else
    js_ret tt.

Definition run_listener (l : listener) : JS unit :=
  match l with
  | TrackingSubmit => tracking_submit
  | HomeSubmit => home_submit
  end.

(** The [DOMContentLoaded] listener (lines 17-66): each form gets its
    listener only if the page has it. *)
Definition on_DOMContentLoaded : JS unit :=
  let* trackingForm := getElementById "tracking-form" in
  match trackingForm with
  | Some form => addEventListener form TrackingSubmit
  | None => js_ret tt
  end ;;;
  let* homeTrackingForm := getElementById "home-tracking-form" in
  match homeTrackingForm with
  | Some form => addEventListener form HomeSubmit
  | None => js_ret tt
  end.

(** ** The browser's side *)

(** The listeners registered on an element, in registration order. *)
Definition listeners_of (id : string) (w : world) : list listener :=
  omap (fun '(i, l) => if String.eqb i id then Some l else None) (listeners w).

(** The user submits [form]: the browser makes a fresh submit event, runs
    the listeners of the form on it, and, unless one of them called
    [preventDefault], submits the form itself, which navigates away. *)
Definition submit (form : string) (w : world) : world :=
  let w' := foldl (fun acc l => report (run_listener l) acc)
                  (set_defaultPrevented false w)
                  (listeners_of form w) in
  if defaultPrevented w' then w' else set_going (Some (FormSubmission form)) w'.

(** The earliest timer due by [t], with its position; of two timers due at
    the same time, the one registered first. *)
Fixpoint next_due (t : N) (i : nat) (l : list (N * callback)) : option (nat * (N * callback)) :=
  match l with
  | [] => None
  | (due, cb) :: rest =>
      match next_due t (S i) rest with
      | Some (j, (due', cb')) =>
          if (due' <? due)%N then Some (j, (due', cb'))
          else if (due <=? t)%N then Some (i, (due, cb))
          else Some (j, (due', cb'))
      | None => if (due <=? t)%N then Some (i, (due, cb)) else None
      end
  end.

(** Time passes until [t]: each timer due by then fires, at its due time
    and in due order, timers set by the callbacks included.  [fuel] bounds
    the number of callbacks run; [None] when it does not suffice. *)
Fixpoint run_until (fuel : nat) (t : N) (w : world) : option world :=
  match next_due t 0 (timers w) with
  | None => Some (set_now (N.max (now w) t) w)
  | Some (i, (due, cb)) =>
      match fuel with
      | O => None
      | S fuel' =>
          run_until fuel' t
            (report (run_callback cb)
                    (set_now (N.max (now w) due)
                             (set_timers (delete i (timers w)) w)))
      end
  end.

(** The page finishes loading: the [load] listener runs. *)
Definition load (w : world) : world := report on_load w.

(** The effects logged since the trace was [n] entries long. *)
Definition effects_since (n : nat) (w : world) : list effect :=
  snd <$> drop n (trace w).

(** ** Pages *)

(** The tracking page, ready for a submission: the form has the script's
    listener (see [DOMContentLoaded_registers]) and the page has the input
    and the result panel. *)
Definition tracking_page (w : world) (input result : element) : Prop :=
  listeners_of "tracking-form" w = [TrackingSubmit] /\
  document w !! "consignment_number" = Some input /\
  document w !! "tracking-result" = Some result.

(** The homepage, ready for a submission. *)
Definition home_page (w : world) (input : element) : Prop :=
  listeners_of "home-tracking-form" w = [HomeSubmit] /\
  document w !! "home-tracking-id" = Some input.

(** The requests started since the trace was [n] entries long. *)
Definition requests_since (n : nat) (w : world) : list request :=
  omap (fun e => match e with EFetch r => Some r | _ => None end)
       (effects_since n w).

(** The success panel for a consignment [c] that has properties: the
    template around its seven fields as strings, when each of them
    converts to one. *)
Definition success_html (c : jsval) : option string :=
  consignment_number ← ToString (field c "consignment_number");
  status ← ToString (field c "status");
  origin ← ToString (field c "origin");
  destination ← ToString (field c "destination");
  current_location ← ToString (field c "current_location");
  estimated_delivery ← ToString (field c "estimated_delivery");
  updated_at ← ToString (field c "updated_at");
  Some (success_template consignment_number status origin destination
                         current_location estimated_delivery updated_at).

(** The seven fields of a consignment that the success panel shows, each
    with the text the template puts before it. *)
Definition consignment_fields : list (string * string) :=
  [ ("consignment_number", "<h4>Tracking Details for ");
    ("status", "<p><strong>Status:</strong> ");
    ("origin", "<p><strong>Origin:</strong> ");
    ("destination", "<p><strong>Destination:</strong> ");
    ("current_location", "<p><strong>Current Location:</strong> ");
    ("estimated_delivery", "<p><strong>Estimated Delivery:</strong> ");
    ("updated_at", "<p><em>Last Updated: ") ].

(** Each of the seven fields of [c] converts to a string, as every string,
    number, boolean, [null] and missing field does. *)
Definition renders (c : jsval) : Prop :=
  forall name heading : string,
    (name, heading) ∈ consignment_fields ->
    is_Some (ToString (field c name)).

(** ** How a server reads a URL

    The script only builds URLs; what a URL means is the reader's business.
    The generic syntax (RFC 3986, section 3) ends the query at the first
    [#]; a form-urlencoded query is a list of [name=value] pairs separated
    by [&], each name and value with [+] for a space and [%XX] for the
    byte [XX].  What the browser's URL parser does before the request
    leaves (it trims the ends and percent-encodes, which the reader
    undoes) is left out. *)

(** [s] up to the first [c]. *)
Fixpoint before (c : ascii) (s : string) : string :=
  match s with
  | EmptyString => ""
  | String a rest => if Ascii.eqb a c then "" else String a (before c rest)
  end.

(** [s] from the first [c] on, [c] left out; [None] when [s] has no [c]. *)
Fixpoint after (c : ascii) (s : string) : option string :=
  match s with
  | EmptyString => None
  | String a rest => if Ascii.eqb a c then Some rest else after c rest
  end.

(** [s] cut at every [c]. *)
Fixpoint split_on (c : ascii) (s : string) : list string :=
  match s with
  | EmptyString => [""]
  | String a rest =>
      if Ascii.eqb a c then "" :: split_on c rest
      else match split_on c rest with
           | [] => [String a ""]
           | piece :: pieces => String a piece :: pieces
           end
  end.

(** The query of a URL reference: what stands between the first [?] and
    the first [#]. *)
Definition url_query (url : string) : option string :=
  after "?" (before "#" url).

(** The value of a hexadecimal digit. *)
Definition hex_value (a : ascii) : option N :=
  let n := N_of_ascii a in
  if (48 <=? n)%N && (n <=? 57)%N then Some (n - 48)%N
  else if (65 <=? n)%N && (n <=? 70)%N then Some (n - 55)%N
  else if (97 <=? n)%N && (n <=? 102)%N then Some (n - 87)%N
  else None.

(** Form decoding: [+] is a space, [%XX] the byte [XX]; a [%] that is not
    followed by two hexadecimal digits stays. *)
Fixpoint form_decode (s : string) : string :=
  match s with
  | EmptyString => ""
  | String a rest =>
      if Ascii.eqb a "+" then String " " (form_decode rest)
      else if Ascii.eqb a "%" then
        match rest with
        | String h (String l rest') =>
            match hex_value h, hex_value l with
            | Some x, Some y =>
                String (ascii_of_N (16 * x + y)) (form_decode rest')
            | _, _ => String a (form_decode rest)
            end
        | _ => String a (form_decode rest)
        end
      else String a (form_decode rest)
  end.

(** The values the query gives to [name], in order. *)
Definition query_values (name url : string) : list string :=
  match url_query url with
  | None => []
  | Some q =>
      omap (fun pair =>
              if String.eqb (form_decode (before "=" pair)) name
              then Some (form_decode (match after "=" pair with
                                      | Some v => v
                                      | None => ""
                                      end))
              else None)
           (split_on "&" q)
  end.

(** [c] occurs in [s]. *)
Fixpoint has_char (c : ascii) (s : string) : bool :=
  match s with
  | EmptyString => false
  | String a rest => Ascii.eqb a c || has_char c rest
  end.

(** A path has no [?] and no [#]. *)
Definition plain_path (p : string) : bool :=
  negb (has_char "?" p) && negb (has_char "#" p).

(** The characters every part of a URL leaves alone (RFC 3986, section
    2.3): letters, digits, [-], [.], [_] and [~]. *)
Definition unreserved_char (a : ascii) : bool :=
  let n := N_of_ascii a in
  ((48 <=? n)%N && (n <=? 57)%N) || ((65 <=? n)%N && (n <=? 90)%N)
  || ((97 <=? n)%N && (n <=? 122)%N)
  || (n =? 45)%N || (n =? 46)%N || (n =? 95)%N || (n =? 126)%N.

Fixpoint unreserved (s : string) : bool :=
  match s with
  | EmptyString => true
  | String a rest => unreserved_char a && unreserved rest
  end.

(** ** Sample pages and replies *)

Definition blank : element := Element "" "" "" "".

(** The tracking page after [DOMContentLoaded], [DL42] typed in. *)
Definition sample_tracking_page : world :=
  World (<["tracking-form" := blank]>
           (<["consignment_number" := Element "DL42" "" "" ""]>
              (<["tracking-result" := blank]> ∅)))
        "/track-consignment/" None false
        [("tracking-form", TrackingSubmit)] [] 0 [] [].

(** The homepage after [DOMContentLoaded], with [v] typed in. *)
Definition sample_home_page (v : string) : world :=
  World (<["home-tracking-form" := blank]>
           (<["home-tracking-id" := Element v "" "" ""]> ∅))
        "/" None false
        [("home-tracking-form", HomeSubmit)] [] 0 [] [].

(** A page with a visible splash screen, about to fire [load]. *)
Definition sample_splash_page : world :=
  World (<["splash-screen" := Element "" "" "1" "flex"]> ∅)
        "/" None false [] [] 0 [] [].

(** A consignment whose status carries markup. *)
Definition sample_consignment : list (string * jsval) :=
  [ ("consignment_number", VString "DL42");
    ("status", VString "<b>In Transit</b>");
    ("origin", VString "Nagpur");
    ("destination", VString "Pune");
    ("current_location", VString "Aurangabad");
    ("estimated_delivery", VString "Nov. 5, 2026");
    ("updated_at", VString "Nov. 2, 2026, 9:30 a.m.") ].

Definition sample_success : jsval :=
  VObject [("status", VString "success"); ("consignment", VObject sample_consignment)].

Definition sample_failure : jsval :=
  VObject [("status", VString "failure"); ("message", VString "Not found")].

(** A stand-in for the parser that knows two bodies. *)
Definition sample_parse (body : string) : option jsval :=
  if String.eqb body "success reply" then Some sample_success
  else if String.eqb body "failure reply" then Some sample_failure
  else None.

(** ** What a reply comes to

    The chain of a tracking request, summed up as two functions of the
    reply: the exception that reaches the [catch] callback, if any, and the
    panel that ends up in the result element.  [tracking_reply_total]
    proves the chain against them. *)

(** The exception the [catch] callback receives: the rejection of [fetch]
    or of [response.json()], the [TypeError] of reading [status] from
    [null] or [consignment_number] from a missing consignment, or that of
    converting a field or the message to a string. *)
Definition reply_error (P : string -> option jsval) (o : outcome) : option error :=
  match o with
  | Rejected reason => Some (FetchRejected reason)
  | Fulfilled body =>
      match P body with
      | None => Some (SyntaxError body)
      | Some data =>
          if nullish data then Some (TypeError "status")
          else if strict_equals_string (field data "status") "success" then
            if nullish (field data "consignment")
            then Some (TypeError "consignment_number")
            else match success_html (field data "consignment") with
                 | Some _ => None
                 | None => Some NotPrimitive
                 end
          else match ToString (field data "message") with
               | Some _ => None
               | None => Some NotPrimitive
               end
      end
  end.

(** The panel the reply leaves in the result element. *)
Definition reply_panel (P : string -> option jsval) (o : outcome) : string :=
  match reply_error P o, o with
  | None, Fulfilled body =>
      match P body with
      | Some data =>
          if strict_equals_string (field data "status") "success"
          then match success_html (field data "consignment") with
               | Some html => html
               | None => error_panel
               end
          else match ToString (field data "message") with
               | Some message => failure_panel message
               | None => error_panel
               end
      | None => error_panel
      end
  | _, _ => error_panel
  end.

(** * The video pipeline helpers

    [video_pipeline/run_blender_render.ps1] and
    [video_pipeline/run_blender_build.ps1] (src/unnamed/part_000, lines
    1-22 and 23-39).  Each checks its parameters before it starts
    Blender; the checks are what is modelled here, not the start of
    Blender after them. *)

(** A [param] with a default value. *)
Definition param (given : option string) (default : string) : string :=
  match given with
  | Some v => v
  | None => default
  end.

Section Checks.

(** [Test-Path] on the machine the script runs on. *)
Variable Test_Path : string -> bool.

(** The checks of [run_blender_render.ps1] (part_000, lines 1-17): the
    message of the [throw] that ends the script, or [None] when it goes on
    to line 19. *)
Definition render_checks (BlenderExe_given : option string) : option string :=
  let BlenderExe := param BlenderExe_given "" in
  if negb (truthy BlenderExe) then
    Some "Blender not found on PATH. Re-run with -BlenderExe <full path to blender.exe>"
  else if negb (Test_Path BlenderExe) then
    Some ("BlenderExe not found: " +:+ BlenderExe)
  else
    let blend := "video_pipeline/blender/india_network_scene.blend" in
    if negb (Test_Path blend) then
      Some ("Missing " +:+ blend +:+
            ". Run video_pipeline/run_blender_build.ps1 first (and optionally edit in Blender UI).")
    else None.

(** The checks of [run_blender_build.ps1] (part_000, lines 23-34): the
    message of the [throw], or [None] when the script goes on to line
    36. *)
Definition build_checks (BlenderExe_given : option string) : option string :=
  let BlenderExe := param BlenderExe_given "" in
  if negb (truthy BlenderExe) then
    Some "Blender not found on PATH. Re-run with -BlenderExe <full path to blender.exe>"
  else if negb (Test_Path BlenderExe) then
    Some ("BlenderExe not found: " +:+ BlenderExe)
  else None.

End Checks.

(** ** More sample pages *)

(** The tracking page without its input, and without its result panel. *)
Definition sample_page_without_input : world :=
  World (<["tracking-form" := blank]> (<["tracking-result" := blank]> ∅))
        "/track-consignment/" None false
        [("tracking-form", TrackingSubmit)] [] 0 [] [].

Definition sample_page_without_panel : world :=
  World (<["tracking-form" := blank]>
           (<["consignment_number" := Element "DL42" "" "" ""]> ∅))
        "/track-consignment/" None false
        [("tracking-form", TrackingSubmit)] [] 0 [] [].

(** The homepage without its input. *)
Definition sample_home_without_input : world :=
  World (<["home-tracking-form" := blank]> ∅)
        "/" None false
        [("home-tracking-form", HomeSubmit)] [] 0 [] [].

(** The tracking page as the server sends it, before any listener is
    registered. *)
Definition sample_fresh_page : world :=
  World (<["tracking-form" := blank]>
           (<["consignment_number" := blank]>
              (<["tracking-result" := blank]> ∅)))
        "/track-consignment/" None false [] [] 0 [] [].

(** A page without a splash screen. *)
Definition sample_plain_page : world :=
  World ∅ "/about/" None false [] [] 0 [] [].

(** A machine with Blender at [C:/blender.exe] and no scene file yet. *)
Definition sample_Test_Path (p : string) : bool :=
  String.eqb p "C:/blender.exe".

(** A reply whose message is an object with a [toString] key. *)
Definition sample_unprintable : jsval :=
  VObject [("status", VString "failure");
           ("message", VObject [("toString", VString "x")])].

(** * Properties *)

(** ** Evaluating the script *)

Ltac js_unfold :=
  unfold report, run_listener, home_submit, tracking_submit,
    js_bind, js_ret, js_throw, js_catch,
    preventDefault, getElementById, read_value, location_pathname, fetch,
    set_location_href, set_innerHTML, console_error.

(** Projections of a world that was built step by step.  (Unfolding the
    steps themselves would copy the world once per field and step.) *)
Ltac world_simpl :=
  cbn [document pathname going defaultPrevented listeners inflight now timers
       trace log set_document set_going set_defaultPrevented set_listeners
       set_inflight set_now set_timers snd fst].

(** [DOMContentLoaded] gives each form that the page has its listener, and
    nothing to a form that the page lacks. *)
Lemma DOMContentLoaded_registers (w : world) :
  listeners w = [] ->
  listeners_of "tracking-form" (exec on_DOMContentLoaded w)
    = match document w !! "tracking-form" with
      | Some _ => [TrackingSubmit]
      | None => []
      end /\
  listeners_of "home-tracking-form" (exec on_DOMContentLoaded w)
    = match document w !! "home-tracking-form" with
      | Some _ => [HomeSubmit]
      | None => []
      end.
Proof.
  intros Hl. unfold exec, on_DOMContentLoaded, listeners_of.
  unfold js_bind, js_ret, getElementById, addEventListener.
  destruct (document w !! "tracking-form") eqn:Et; cbn; rewrite ?Et; cbn.
  all: destruct (document w !! "home-tracking-form") eqn:Eh; cbn.
  all: rewrite Hl; split; reflexivity.
Qed.

(** ** The homepage search box *)

(** What a submission of the homepage form does, step by step. *)
Lemma submit_home (w : world) (input : element) :
  home_page w input ->
  submit "home-tracking-form" w =
    let w1 := log (EReadValue "home-tracking-id")
                (log (EGetElementById "home-tracking-id")
                   (log EPreventDefault (set_defaultPrevented true w))) in
    if truthy (el_value input) then
      let url := "/track-consignment/?consignment_number=" +:+ el_value input in
      log (ESetHref url) (set_going (Some (ScriptNavigation url)) w1)
    else w1.
Proof.
  intros [Hl Hd]. unfold submit. rewrite Hl. cbn [foldl].
  js_unfold. cbn. rewrite !Hd. cbn.
  destruct (truthy (el_value input)); reflexivity.
Qed.

Lemma truthy_nonempty (s : string) : s <> "" -> truthy s = true.
Proof. destruct s; [congruence | reflexivity]. Qed.

(** C4.  On the homepage, submitting the search form with a non-empty
    tracking id [v] makes the page navigate to
    [/track-consignment/?consignment_number=] followed by [v]; with
    [ABC123] typed in, to [/track-consignment/?consignment_number=ABC123]. *)
Theorem home_submit_navigates (w : world) (input : element) :
  home_page w input ->
  el_value input <> "" ->
  going (submit "home-tracking-form" w)
    = Some (ScriptNavigation
              ("/track-consignment/?consignment_number=" +:+ el_value input)) /\
  (el_value input = "ABC123" ->
   going (submit "home-tracking-form" w)
     = Some (ScriptNavigation "/track-consignment/?consignment_number=ABC123")).
Proof.
  intros Hp Hv. rewrite (submit_home w input Hp).
  rewrite (truthy_nonempty _ Hv). cbn.
  split; [reflexivity | intros ->; reflexivity].
Qed.

(** C6.  On the homepage, submitting the search form with nothing typed in
    leaves the page as it was: no navigation starts, no element changes, no
    request and no timer is started.  All the listener has done is cancel
    the event and read the input. *)
Theorem home_submit_empty (w : world) (input : element) :
  home_page w input ->
  el_value input = "" ->
  submit "home-tracking-form" w
    = World (document w) (pathname w) (going w) true (listeners w)
            (inflight w) (now w) (timers w)
            (trace w ++ [ (now w, EPreventDefault);
                          (now w, EGetElementById "home-tracking-id");
                          (now w, EReadValue "home-tracking-id") ]) /\
  going (submit "home-tracking-form" w) = going w /\
  document (submit "home-tracking-form" w) = document w.
Proof.
  intros Hp Hv. rewrite (submit_home w input Hp), Hv. cbn.
  split; [| split; reflexivity].
  unfold log, set_defaultPrevented. cbn. rewrite <- !app_assoc. reflexivity.
Qed.

(** ** The tracking form *)

(** The listener of the tracking form, step by step. *)
Lemma submit_tracking (w : world) (input result : element) :
  tracking_page w input result ->
  submit "tracking-form" w =
    let r := Request "GET" (pathname w +:+ "?consignment_number=" +:+ el_value input) in
    log (EFetch r)
      (set_inflight (inflight w ++ [(r, TrackingReply (Some "tracking-result"))])
         (log EReadPathname
            (log (EGetElementById "tracking-result")
               (log (EReadValue "consignment_number")
                  (log (EGetElementById "consignment_number")
                     (log EPreventDefault (set_defaultPrevented true w))))))).
Proof.
  intros (Hl & Hi & Hr). unfold submit. rewrite Hl. cbn [foldl].
  js_unfold. cbn. rewrite !Hi. cbn. rewrite !Hr. reflexivity.
Qed.

Lemma lookup_snoc {A : Type} (l : list A) (x : A) :
  (l ++ [x]) !! length l = Some x.
Proof. rewrite lookup_app_r, Nat.sub_diag by lia. reflexivity. Qed.

Lemma delete_snoc {A : Type} (l : list A) (x : A) :
  delete (length l) (l ++ [x]) = l.
Proof. induction l as [|a l IH]; [reflexivity | cbn; f_equal; exact IH]. Qed.

(** The world in which the chain of that request runs: the submitted page,
    the request no longer in flight. *)
Lemma settle_submitted (P : string -> option jsval) (w : world)
    (input result : element) (o : outcome) :
  tracking_page w input result ->
  settle P (length (inflight w)) o (submit "tracking-form" w)
    = Some (report (tracking_reply P (Some "tracking-result") o)
                   (set_inflight (inflight w) (submit "tracking-form" w))).
Proof.
  intros Hp. rewrite (submit_tracking w input result Hp).
  unfold settle. cbn [inflight log set_inflight].
  rewrite lookup_snoc, delete_snoc. reflexivity.
Qed.

Lemma get_property_ok (v : jsval) (p : string) (w : world) :
  nullish v = false -> get_property v p w = (Ok (field v p), w).
Proof. destruct v; cbn; intros H; try discriminate H; reflexivity. Qed.

Lemma get_property_throws (v : jsval) (p : string) (w : world) :
  nullish v = true -> get_property v p w = (Throw (TypeError p), w).
Proof. destruct v; cbn; intros H; try discriminate H; reflexivity. Qed.

Lemma to_string_eval (v : jsval) (w : world) :
  to_string v w
    = (match ToString v with
       | Some s => Ok s
       | None => Throw NotPrimitive
       end, w).
Proof. unfold to_string. destruct (ToString v); reflexivity. Qed.

Lemma success_panel_ok (c : jsval) (w : world) :
  nullish c = false ->
  success_panel c w
    = (match success_html c with
       | Some html => Ok html
       | None => Throw NotPrimitive
       end, w).
Proof.
  intros Hc. unfold success_panel, success_html, js_bind, js_ret.
  repeat (rewrite (get_property_ok c _ w Hc), to_string_eval;
          destruct (ToString (field c _)); cbn [mbind option_bind];
          [| reflexivity]).
  reflexivity.
Qed.

Lemma success_panel_throws (c : jsval) (w : world) :
  nullish c = true ->
  success_panel c w = (Throw (TypeError "consignment_number"), w).
Proof.
  intros Hc. unfold success_panel, js_bind.
  rewrite (get_property_throws c _ w Hc). reflexivity.
Qed.

Lemma strict_equals_string_true (v : jsval) (s : string) :
  strict_equals_string v s = true <-> v = VString s.
Proof.
  destruct v; cbn; try (split; [discriminate | intros [=]]).
  rewrite String.eqb_eq. split; [intros -> | intros [= ->]]; reflexivity.
Qed.

Lemma strict_equals_string_false (v : jsval) (s : string) :
  strict_equals_string v s = false <-> v <> VString s.
Proof.
  rewrite <- strict_equals_string_true.
  destruct (strict_equals_string v s); split; congruence.
Qed.

(** The second [then] callback on data whose [status] is ["success"] and
    whose [consignment] has properties. *)
(** The second [then] callback on data whose [status] is ["success"] and
    whose [consignment] has properties. *)
Lemma on_data_success (r : option string) (data : jsval) (w : world) :
  nullish data = false ->
  field data "status" = VString "success" ->
  nullish (field data "consignment") = false ->
  on_data r data w
    = match success_html (field data "consignment") with
      | Some html => set_innerHTML r html w
      | None => (Throw NotPrimitive, w)
      end.
Proof.
  intros Hd Hs Hc. unfold on_data, js_bind.
  rewrite (get_property_ok data "status" w Hd), Hs.
  change (strict_equals_string (VString "success") "success") with true.
  cbv beta iota.
  rewrite (get_property_ok data "consignment" w Hd).
  rewrite (success_panel_ok _ w Hc).
  destruct (success_html (field data "consignment")); reflexivity.
Qed.

(** The same callback on data with any other [status]. *)
Lemma on_data_other (r : option string) (data : jsval) (w : world) :
  nullish data = false ->
  field data "status" <> VString "success" ->
  on_data r data w
    = match ToString (field data "message") with
      | Some message => set_innerHTML r (failure_panel message) w
      | None => (Throw NotPrimitive, w)
      end.
Proof.
  intros Hd Hs. unfold on_data, js_bind.
  rewrite (get_property_ok data "status" w Hd).
  apply strict_equals_string_false in Hs. rewrite Hs. cbv beta iota.
  rewrite (get_property_ok data "message" w Hd), to_string_eval.
  destruct (ToString (field data "message")); reflexivity.
Qed.

(** The chain, when the request brought no data. *)
Lemma tracking_reply_failure (P : string -> option jsval) (r : option string)
    (o : outcome) (err : error) (w : world) :
  failure_of P o = Some err ->
  tracking_reply P r o w = on_error r err w.
Proof.
  unfold failure_of, tracking_reply, js_catch, js_bind, fetch_settled, response_json.
  destruct o as [reason | body]; cbn.
  - intros [= <-]. reflexivity.
  - destruct (P body); [discriminate |]. intros [= <-]. reflexivity.
Qed.

(** The chain, when the request brought [data] and the element is there:
    the [catch] callback stays out of it. *)
Lemma tracking_reply_data (P : string -> option jsval) (r : string)
    (body : string) (data : jsval) (html : string) (w : world) :
  P body = Some data ->
  on_data (Some r) data w = set_innerHTML (Some r) html w ->
  tracking_reply P (Some r) (Fulfilled body) w = set_innerHTML (Some r) html w.
Proof.
  intros HP Hd. unfold tracking_reply, js_catch, js_bind, fetch_settled, response_json.
  cbn. rewrite HP. cbn. rewrite Hd. reflexivity.
Qed.

(** What the listener of the tracking form leaves as it was. *)
Lemma submit_tracking_frame (w : world) (input result : element) :
  tracking_page w input result ->
  document (submit "tracking-form" w) = document w /\
  pathname (submit "tracking-form" w) = pathname w /\
  going (submit "tracking-form" w) = going w /\
  listeners (submit "tracking-form" w) = listeners w /\
  timers (submit "tracking-form" w) = timers w /\
  now (submit "tracking-form" w) = now w.
Proof.
  intros Hp. rewrite (submit_tracking w input result Hp).
  repeat split; reflexivity.
Qed.

(** The document after [el.innerHTML = html]. *)
Lemma set_innerHTML_document (r html : string) (e : element) (w : world) :
  document w !! r = Some e ->
  document (exec (set_innerHTML (Some r) html) w)
    = <[r := with_innerHTML html e]> (document w).
Proof.
  intros He. unfold exec, set_innerHTML. cbn [snd document log set_document].
  apply alter_alt_Some. exact He.
Qed.

Lemma report_set_innerHTML (m : JS unit) (r html : string) (w : world) :
  m w = set_innerHTML (Some r) html w ->
  report m w = exec (set_innerHTML (Some r) html) w.
Proof. intros E. unfold report, exec. rewrite E. reflexivity. Qed.

(** ** Substrings *)

Lemma append_assoc (a b c : string) : (a +:+ b) +:+ c = a +:+ b +:+ c.
Proof.
  induction a as [|x a IH]; [reflexivity |].
  change (String x ((a +:+ b) +:+ c) = String x (a +:+ b +:+ c)).
  rewrite IH. reflexivity.
Qed.

Lemma contains_here (needle rest : string) : contains (needle +:+ rest) needle.
Proof. exists "", rest. reflexivity. Qed.

Lemma contains_skip (s hay needle : string) :
  contains hay needle -> contains (s +:+ hay) needle.
Proof.
  intros (pre & post & ->). exists (s +:+ pre), post.
  symmetry. apply append_assoc.
Qed.

Lemma contains_pair (heading v rest : string) :
  contains (heading +:+ v +:+ rest) (heading +:+ v).
Proof. rewrite <- append_assoc. apply contains_here. Qed.

Lemma contains_value (heading v hay : string) :
  contains hay (heading +:+ v) -> contains hay v.
Proof.
  intros (pre & post & ->). exists (pre +:+ heading), post.
  rewrite !append_assoc. reflexivity.
Qed.

(** In the success panel each of the seven fields stands right after its
    heading, converted to a string and otherwise as it is. *)
Lemma success_html_fields (c : jsval) (html name heading : string) :
  success_html c = Some html ->
  (name, heading) ∈ consignment_fields ->
  exists text : string,
    ToString (field c name) = Some text /\
    contains html (heading +:+ text).
Proof.
  unfold success_html. intros H Hin.
  destruct (ToString (field c "consignment_number")) as [t1 |] eqn:E1; [| discriminate H].
  destruct (ToString (field c "status")) as [t2 |] eqn:E2; [| discriminate H].
  destruct (ToString (field c "origin")) as [t3 |] eqn:E3; [| discriminate H].
  destruct (ToString (field c "destination")) as [t4 |] eqn:E4; [| discriminate H].
  destruct (ToString (field c "current_location")) as [t5 |] eqn:E5; [| discriminate H].
  destruct (ToString (field c "estimated_delivery")) as [t6 |] eqn:E6; [| discriminate H].
  destruct (ToString (field c "updated_at")) as [t7 |] eqn:E7; [| discriminate H].
  cbn [mbind option_bind] in H. injection H as <-.
  unfold consignment_fields in Hin.
  repeat (apply elem_of_cons in Hin as [Hin | Hin];
          [injection Hin as -> ->;
           eexists; split; [eassumption |];
           unfold success_template;
           repeat first [apply contains_pair | apply contains_skip] |]).
  apply elem_of_nil in Hin. destruct Hin.
Qed.

(** A consignment whose seven fields convert has a success panel. *)
Lemma renders_success_html (c : jsval) :
  renders c -> exists html : string, success_html c = Some html.
Proof.
  intros H. unfold success_html.
  assert (Hf : forall name heading,
             (name, heading) ∈ consignment_fields ->
             exists t, ToString (field c name) = Some t).
  { intros name heading Hin. destruct (H name heading Hin) as [t Ht]. eauto. }
  unfold consignment_fields in Hf.
  destruct (Hf "consignment_number" _ ltac:(repeat constructor)) as [t1 ->].
  destruct (Hf "status" _ ltac:(repeat constructor)) as [t2 ->].
  destruct (Hf "origin" _ ltac:(repeat constructor)) as [t3 ->].
  destruct (Hf "destination" _ ltac:(repeat constructor)) as [t4 ->].
  destruct (Hf "current_location" _ ltac:(repeat constructor)) as [t5 ->].
  destruct (Hf "estimated_delivery" _ ltac:(repeat constructor)) as [t6 ->].
  destruct (Hf "updated_at" _ ltac:(repeat constructor)) as [t7 ->].
  eexists. reflexivity.
Qed.

(** ** The reply to a tracking request *)

(** C1.  On the tracking page, when the response to a submission parses as
    JSON whose [status] is ["success"] and whose [consignment] is an
    object [c] with seven fields that convert to strings (as strings,
    numbers, booleans and [null] do), the result panel's [innerHTML]
    becomes the success panel of [c]; the panel holds each of the seven
    fields of [c] right after its heading, and a field that is a string
    stands there literally. *)
Theorem tracking_success_renders (P : string -> option jsval) (w : world)
    (input result : element) (body : string)
    (props c : list (string * jsval)) :
  tracking_page w input result ->
  P body = Some (VObject props) ->
  own_property "status" props = Some (VString "success") ->
  own_property "consignment" props = Some (VObject c) ->
  renders (VObject c) ->
  exists (w' : world) (html : string),
    settle P (length (inflight w)) (Fulfilled body) (submit "tracking-form" w)
      = Some w' /\
    success_html (VObject c) = Some html /\
    document w'
      = <["tracking-result" := with_innerHTML html result]> (document w) /\
    forall name heading : string,
      (name, heading) ∈ consignment_fields ->
      (exists text : string,
         ToString (field (VObject c) name) = Some text /\
         contains html (heading +:+ text)) /\
      forall s : string,
        own_property name c = Some (VString s) ->
        contains html (heading +:+ s).
Proof.
  intros Hp HP Hs Hc Hr.
  destruct (renders_success_html _ Hr) as [html Hhtml].
  assert (Hfc : field (VObject props) "consignment" = VObject c)
    by (unfold field; rewrite Hc; reflexivity).
  assert (Hdata : on_data (Some "tracking-result") (VObject props)
                    (set_inflight (inflight w) (submit "tracking-form" w))
                  = set_innerHTML (Some "tracking-result") html
                      (set_inflight (inflight w) (submit "tracking-form" w))).
  { rewrite on_data_success; rewrite ?Hfc, ?Hhtml; try reflexivity.
    unfold field. rewrite Hs. reflexivity. }
  exists (exec (set_innerHTML (Some "tracking-result") html)
               (set_inflight (inflight w) (submit "tracking-form" w))), html.
  split; [| split; [exact Hhtml | split]].
  - rewrite (settle_submitted P w input result _ Hp). f_equal.
    apply report_set_innerHTML.
    apply (tracking_reply_data P _ body (VObject props)); [exact HP | exact Hdata].
  - destruct Hp as (Hl & Hi & Hres).
    rewrite (set_innerHTML_document _ _ result).
    + cbn [document set_inflight].
      rewrite (proj1 (submit_tracking_frame w input result (conj Hl (conj Hi Hres)))).
      reflexivity.
    + cbn [document set_inflight].
      rewrite (proj1 (submit_tracking_frame w input result (conj Hl (conj Hi Hres)))).
      exact Hres.
  - intros name heading Hin.
    destruct (success_html_fields (VObject c) html name heading Hhtml Hin)
      as (text & Ht & Hcont).
    split.
    + exists text. split; [exact Ht | exact Hcont].
    + intros s Hf. unfold field in Ht. rewrite Hf in Ht.
      injection Ht as <-. exact Hcont.
Qed.

(** C2.  On the tracking page, when the response parses as JSON whose
    [status] is anything but ["success"] (or is missing) and whose
    [message] is [m], with the text [text] as a string, the result panel's
    [innerHTML] becomes exactly the failure panel around that text: the
    opening tag, the text, the closing tag.  A [message] that is a string
    is its own text. *)
Theorem tracking_failure_renders (P : string -> option jsval) (w : world)
    (input result : element) (body : string)
    (props : list (string * jsval)) (m : jsval) (text : string) :
  tracking_page w input result ->
  P body = Some (VObject props) ->
  field (VObject props) "status" <> VString "success" ->
  own_property "message" props = Some m ->
  ToString m = Some text ->
  exists w' : world,
    settle P (length (inflight w)) (Fulfilled body) (submit "tracking-form" w)
      = Some w' /\
    document w'
      = <["tracking-result" :=
            with_innerHTML
              ("<div class=" +:+ dquote +:+ "alert alert-danger" +:+ dquote +:+ ">"
               +:+ text +:+ "</div>")
              result]>
          (document w) /\
    forall s : string,
      m = VString s ->
      el_innerHTML <$> document w' !! "tracking-result"
        = Some ("<div class=" +:+ dquote +:+ "alert alert-danger" +:+ dquote +:+ ">"
                +:+ s +:+ "</div>").
Proof.
  intros Hp HP Hs Hm Ht.
  assert (Hdata : on_data (Some "tracking-result") (VObject props)
                    (set_inflight (inflight w) (submit "tracking-form" w))
                  = set_innerHTML (Some "tracking-result") (failure_panel text)
                      (set_inflight (inflight w) (submit "tracking-form" w))).
  { rewrite on_data_other; [| reflexivity | exact Hs].
    unfold field. rewrite Hm, Ht. reflexivity. }
  assert (Hdoc : document
                   (exec (set_innerHTML (Some "tracking-result") (failure_panel text))
                         (set_inflight (inflight w) (submit "tracking-form" w)))
                 = <["tracking-result" := with_innerHTML (failure_panel text) result]>
                     (document w)).
  { pose proof (proj1 (submit_tracking_frame w input result Hp)) as Hf.
    destruct Hp as (Hl & Hi & Hr).
    rewrite (set_innerHTML_document _ _ result); cbn [document set_inflight];
      rewrite Hf; [reflexivity | exact Hr]. }
  exists (exec (set_innerHTML (Some "tracking-result") (failure_panel text))
               (set_inflight (inflight w) (submit "tracking-form" w))).
  split; [| split].
  - rewrite (settle_submitted P w input result _ Hp). f_equal.
    apply report_set_innerHTML.
    apply (tracking_reply_data P _ body (VObject props)); [exact HP | exact Hdata].
  - exact Hdoc.
  - intros s ->. injection Ht as <-. rewrite Hdoc, lookup_insert_eq. reflexivity.
Qed.

(** C3.  On the tracking page, when the request is rejected, or its
    response does not parse as JSON, the chain logs the error to the
    console and the result panel's [innerHTML] becomes the failure panel
    with the fixed message, whatever the error is. *)
Theorem tracking_error_renders (P : string -> option jsval) (w : world)
    (input result : element) (o : outcome) (err : error) :
  tracking_page w input result ->
  failure_of P o = Some err ->
  exists w' : world,
    settle P (length (inflight w)) o (submit "tracking-form" w) = Some w' /\
    effects_since (length (trace (submit "tracking-form" w))) w'
      = [ EConsoleError "Error:" err;
          ESetInnerHTML "tracking-result"
            ("<div class=" +:+ dquote +:+ "alert alert-danger" +:+ dquote +:+ ">"
             +:+ "An error occurred. Please try again.</div>") ] /\
    document w'
      = <["tracking-result" :=
            with_innerHTML
              ("<div class=" +:+ dquote +:+ "alert alert-danger" +:+ dquote +:+ ">"
               +:+ "An error occurred. Please try again.</div>")
              result]>
          (document w).
Proof.
  intros Hp Hf.
  pose proof (proj1 (submit_tracking_frame w input result Hp)) as Hdoc.
  exists (exec (on_error (Some "tracking-result") err)
               (set_inflight (inflight w) (submit "tracking-form" w))).
  split; [| split].
  - rewrite (settle_submitted P w input result _ Hp). f_equal.
    unfold report, exec. rewrite (tracking_reply_failure P _ o err _ Hf).
    reflexivity.
  - unfold effects_since, exec, on_error, js_bind, console_error, set_innerHTML.
    cbn [snd trace log set_document set_inflight].
    rewrite <- app_assoc, drop_app_length. reflexivity.
  - unfold exec, on_error, js_bind, console_error, set_innerHTML.
    cbn [snd document log set_document set_inflight]. rewrite Hdoc.
    apply alter_alt_Some. apply Hp.
Qed.

(** C7.  Every submission of the tracking form starts exactly one request,
    a GET to the path of the current page followed by
    [?consignment_number=] and the value typed in, and returns with the
    request in flight and the document as it was.  The body of the response
    reaches the rest of the chain only through the JSON parser: its parse
    goes to the data callback, its failure to parse to the catch
    callback. *)
Theorem tracking_submit_fetches (P : string -> option jsval) (w : world)
    (input result : element) :
  tracking_page w input result ->
  let url := pathname w +:+ "?consignment_number=" +:+ el_value input in
  requests_since (length (trace w)) (submit "tracking-form" w)
    = [Request "GET" url] /\
  inflight (submit "tracking-form" w)
    = inflight w ++ [(Request "GET" url, TrackingReply (Some "tracking-result"))] /\
  document (submit "tracking-form" w) = document w /\
  forall body : string,
    settle P (length (inflight w)) (Fulfilled body) (submit "tracking-form" w)
      = Some (report
                match P body with
                | Some data =>
                    js_catch (on_data (Some "tracking-result") data)
                             (on_error (Some "tracking-result"))
                | None => on_error (Some "tracking-result") (SyntaxError body)
                end
                (set_inflight (inflight w) (submit "tracking-form" w))).
Proof.
  intros Hp url. split; [| split; [| split]].
  - rewrite (submit_tracking w input result Hp).
    unfold requests_since, effects_since. world_simpl.
    rewrite <- !app_assoc, drop_app_length. reflexivity.
  - rewrite (submit_tracking w input result Hp). reflexivity.
  - apply (submit_tracking_frame w input result Hp).
  - intros body. rewrite (settle_submitted P w input result _ Hp).
    f_equal. unfold report, tracking_reply, js_catch, js_bind, fetch_settled,
      response_json, js_ret, js_throw.
    destruct (P body); reflexivity.
Qed.

(** C8.  The success branch escapes nothing: for a consignment whose
    seven fields convert to strings, the string it assigns to the result
    panel's [innerHTML] holds every string field as it came, character for
    character, whatever characters it is made of. *)
Theorem success_panel_verbatim (r : string) (data c : jsval) (w : world) :
  nullish data = false ->
  field data "status" = VString "success" ->
  field data "consignment" = c ->
  nullish c = false ->
  renders c ->
  exists html : string,
    on_data (Some r) data w = set_innerHTML (Some r) html w /\
    effects_since (length (trace w)) (exec (on_data (Some r) data) w)
      = [ESetInnerHTML r html] /\
    forall name heading s : string,
      (name, heading) ∈ consignment_fields ->
      field c name = VString s ->
      contains html s.
Proof.
  intros Hd Hs Hc Hn Hr.
  destruct (renders_success_html _ Hr) as [html Hhtml]. exists html.
  assert (E : on_data (Some r) data w = set_innerHTML (Some r) html w).
  { rewrite on_data_success; rewrite ?Hc, ?Hhtml; auto. }
  split; [exact E | split].
  - unfold exec. rewrite E. unfold effects_since, set_innerHTML.
    cbn [snd trace log set_document]. rewrite drop_app_length. reflexivity.
  - intros name heading s Hin Hf.
    apply (contains_value heading).
    destruct (success_html_fields c html name heading Hhtml Hin) as (text & Ht & H).
    rewrite Hf in Ht. injection Ht as <-. exact H.
Qed.

(** ** The URLs the script builds *)

Lemma before_append (c : ascii) (s t : string) :
  has_char c s = false -> before c (s +:+ t) = s +:+ before c t.
Proof.
  induction s as [|a s IH]; [reflexivity |].
  change (String a s +:+ t) with (String a (s +:+ t)).
  change (String a s +:+ before c t) with (String a (s +:+ before c t)).
  cbn [has_char before]. destruct (Ascii.eqb a c); [discriminate |].
  cbn [orb]. intros H. rewrite (IH H). reflexivity.
Qed.

Lemma after_append (c : ascii) (s t : string) :
  has_char c s = false -> after c (s +:+ t) = after c t.
Proof.
  induction s as [|a s IH]; [reflexivity |].
  change (String a s +:+ t) with (String a (s +:+ t)).
  cbn [has_char after]. destruct (Ascii.eqb a c); [discriminate |].
  cbn [orb]. exact IH.
Qed.

(** The query of a URL made of a plain path and a rest that begins with
    [?]. *)
Lemma url_query_append (p rest : string) :
  plain_path p = true ->
  url_query (p +:+ "?" +:+ rest) = Some (before "#" rest).
Proof.
  unfold plain_path, url_query. intros H.
  apply andb_true_iff in H as [Hq Hh].
  apply negb_true_iff in Hq, Hh.
  rewrite (before_append "#" p _ Hh), (after_append "?" p _ Hq).
  reflexivity.
Qed.

(** C9.  Both URLs are plain concatenations, the typed value appended as it
    is: the request goes to the current path followed by
    [?consignment_number=] and the value, the redirect to
    [/track-consignment/?consignment_number=] and the value.  Hence a
    server that reads the query does not always read what was typed: of
    [A&B] and of [A#B] it reads [A] (and of [ABC123], [ABC123]). *)
Theorem urls_are_concatenations (wt : world) (it rt : element)
    (wh : world) (ih : element) :
  tracking_page wt it rt ->
  home_page wh ih ->
  el_value ih <> "" ->
  req_url <$> requests_since (length (trace wt)) (submit "tracking-form" wt)
    = [pathname wt +:+ "?consignment_number=" +:+ el_value it] /\
  going (submit "home-tracking-form" wh)
    = Some (ScriptNavigation
              ("/track-consignment/?consignment_number=" +:+ el_value ih)) /\
  (forall p : string,
     plain_path p = true ->
     query_values "consignment_number" (p +:+ "?consignment_number=" +:+ "A&B")
       = ["A"] /\
     query_values "consignment_number" (p +:+ "?consignment_number=" +:+ "A#B")
       = ["A"] /\
     query_values "consignment_number" (p +:+ "?consignment_number=" +:+ "ABC123")
       = ["ABC123"]) /\
  query_values "consignment_number"
               ("/track-consignment/?consignment_number=" +:+ "A&B") = ["A"] /\
  query_values "consignment_number"
               ("/track-consignment/?consignment_number=" +:+ "A#B") = ["A"].
Proof.
  intros Ht Hh Hv. split; [| split; [| split; [| split]]].
  - rewrite (submit_tracking wt it rt Ht).
    unfold requests_since, effects_since. world_simpl.
    rewrite <- !app_assoc, drop_app_length. reflexivity.
  - rewrite (submit_home wh ih Hh), (truthy_nonempty _ Hv). reflexivity.
  - intros p Hp. unfold query_values.
    change (p +:+ "?consignment_number=" +:+ "A&B")
      with (p +:+ "?" +:+ "consignment_number=A&B").
    change (p +:+ "?consignment_number=" +:+ "A#B")
      with (p +:+ "?" +:+ "consignment_number=A#B").
    change (p +:+ "?consignment_number=" +:+ "ABC123")
      with (p +:+ "?" +:+ "consignment_number=ABC123").
    rewrite !(url_query_append p _ Hp). repeat split; reflexivity.
  - reflexivity.
  - reflexivity.
Qed.

(** ** Cancelling the event, and what a submission leaves alone *)

(** The data callback either assigns one panel or throws before it
    touches anything. *)
Lemma on_data_cases (r : option string) (data : jsval) (w : world) :
  (exists html : string, on_data r data w = set_innerHTML r html w) \/
  (exists err : error, on_data r data w = (Throw err, w)).
Proof.
  destruct (nullish data) eqn:Hd.
  { right. exists (TypeError "status"). unfold on_data, js_bind.
    rewrite (get_property_throws data "status" w Hd). reflexivity. }
  destruct (strict_equals_string (field data "status") "success") eqn:Hs.
  - apply strict_equals_string_true in Hs.
    destruct (nullish (field data "consignment")) eqn:Hc.
    + right. exists (TypeError "consignment_number"). unfold on_data, js_bind.
      rewrite (get_property_ok data "status" w Hd), Hs.
      change (strict_equals_string (VString "success") "success") with true.
      cbv beta iota.
      rewrite (get_property_ok data "consignment" w Hd).
      rewrite (success_panel_throws _ w Hc). reflexivity.
    + rewrite (on_data_success r data w Hd Hs Hc).
      destruct (success_html (field data "consignment")) as [html |].
      * left. exists html. reflexivity.
      * right. exists NotPrimitive. reflexivity.
  - apply strict_equals_string_false in Hs.
    rewrite (on_data_other r data w Hd Hs).
    destruct (ToString (field data "message")) as [message |].
    + left. exists (failure_panel message). reflexivity.
    + right. exists NotPrimitive. reflexivity.
Qed.

(** Whatever the request ends with, the chain of a tracking request whose
    result panel was found ends in one assignment to its [innerHTML], after
    at most one line on the console. *)
Lemma tracking_reply_cases (P : string -> option jsval) (r : string)
    (o : outcome) (w : world) :
  (exists html : string,
     tracking_reply P (Some r) o w = set_innerHTML (Some r) html w) \/
  (exists err : error,
     tracking_reply P (Some r) o w = on_error (Some r) err w).
Proof.
  destruct (failure_of P o) as [err |] eqn:Hf.
  { right. exists err. apply tracking_reply_failure. exact Hf. }
  destruct o as [reason | body]; [discriminate Hf |].
  cbn in Hf. destruct (P body) as [data |] eqn:HP; [clear Hf | discriminate Hf].
  destruct (on_data_cases (Some r) data w) as [[html E] | [err E]].
  - left. exists html. apply (tracking_reply_data P r body data html w HP E).
  - right. exists err.
    unfold tracking_reply, js_catch, js_bind, fetch_settled, response_json, js_ret.
    rewrite HP. cbv beta iota. rewrite E. reflexivity.
Qed.

(** Either way, the chain touches the [innerHTML] of that element and
    nothing else of the page. *)
Lemma tracking_reply_frame (P : string -> option jsval) (r : string)
    (o : outcome) (e : element) (w : world) :
  document w !! r = Some e ->
  exists html : string,
    document (report (tracking_reply P (Some r) o) w)
      = <[r := with_innerHTML html e]> (document w) /\
    going (report (tracking_reply P (Some r) o) w) = going w /\
    pathname (report (tracking_reply P (Some r) o) w) = pathname w.
Proof.
  intros He.
  destruct (tracking_reply_cases P r o w) as [[html E] | [err E]].
  - exists html. unfold report. rewrite E. unfold set_innerHTML.
    cbn [document going pathname log set_document].
    rewrite (alter_alt_Some _ _ _ _ He). repeat split; reflexivity.
  - exists error_panel. unfold report. rewrite E.
    unfold on_error, js_bind, console_error, set_innerHTML.
    cbn [document going pathname log set_document].
    rewrite (alter_alt_Some _ _ _ _ He). repeat split; reflexivity.
Qed.

(** Both listeners cancel the event before anything else, whatever the
    page looks like. *)
Lemma tracking_submit_cancels (w : world) :
  head (effects_since (length (trace w)) (report tracking_submit w))
    = Some EPreventDefault /\
  defaultPrevented (report tracking_submit w) = true.
Proof.
  js_unfold. cbn [document log set_defaultPrevented].
  destruct (document w !! "consignment_number") eqn:Ei;
    cbn [document log set_defaultPrevented]; rewrite ?Ei;
    destruct (document w !! "tracking-result");
    unfold effects_since; world_simpl;
    rewrite <- ?app_assoc, drop_app_length; split; reflexivity.
Qed.

Lemma home_submit_cancels (w : world) :
  head (effects_since (length (trace w)) (report home_submit w))
    = Some EPreventDefault /\
  defaultPrevented (report home_submit w) = true.
Proof.
  js_unfold. cbn [document log set_defaultPrevented].
  destruct (document w !! "home-tracking-id") as [e |] eqn:Ei;
    cbn [document log set_defaultPrevented]; rewrite ?Ei;
    [destruct (truthy (el_value e)) |];
    unfold effects_since; world_simpl;
    rewrite <- ?app_assoc, drop_app_length; split; reflexivity.
Qed.

(** C10.  Both submit listeners cancel the event first, on any page.  So
    the browser never submits the form itself: a submission of the tracking
    form starts no navigation, a submission of the homepage form starts
    none but the script's own redirect, and none at all when nothing was
    typed.  The reply to a tracking request, however the request ends,
    leaves the location alone and changes nothing in the document but the
    [innerHTML] of the result panel. *)
Theorem submit_cancels_default (P : string -> option jsval)
    (wt : world) (it rt : element) (wh : world) (ih : element) :
  tracking_page wt it rt ->
  home_page wh ih ->
  (forall w : world,
     head (effects_since (length (trace w)) (report tracking_submit w))
       = Some EPreventDefault /\
     defaultPrevented (report tracking_submit w) = true /\
     head (effects_since (length (trace w)) (report home_submit w))
       = Some EPreventDefault /\
     defaultPrevented (report home_submit w) = true) /\
  going (submit "tracking-form" wt) = going wt /\
  (going (submit "home-tracking-form" wh) = going wh \/
   going (submit "home-tracking-form" wh)
     = Some (ScriptNavigation
               ("/track-consignment/?consignment_number=" +:+ el_value ih))) /\
  (el_value ih = "" -> going (submit "home-tracking-form" wh) = going wh) /\
  forall o : outcome,
    exists (w' : world) (html : string),
      settle P (length (inflight wt)) o (submit "tracking-form" wt) = Some w' /\
      going w' = going wt /\
      pathname w' = pathname wt /\
      document w' = <["tracking-result" := with_innerHTML html rt]> (document wt).
Proof.
  intros Ht Hh. split; [| split; [| split; [| split]]].
  - intros w. pose proof (tracking_submit_cancels w) as [? ?].
    pose proof (home_submit_cancels w) as [? ?]. auto.
  - apply (submit_tracking_frame wt it rt Ht).
  - rewrite (submit_home wh ih Hh).
    destruct (truthy (el_value ih)); [right | left]; reflexivity.
  - intros Hv. rewrite (submit_home wh ih Hh), Hv. reflexivity.
  - intros o.
    destruct (submit_tracking_frame wt it rt Ht) as (Hdoc & Hpath & Hgo & _).
    assert (He : document (set_inflight (inflight wt) (submit "tracking-form" wt))
                   !! "tracking-result" = Some rt).
    { cbn [document set_inflight]. rewrite Hdoc. apply Ht. }
    destruct (tracking_reply_frame P "tracking-result" o rt _ He)
      as (html & Hd & Hg & Hp).
    eexists. exists html. split; [| split; [| split]].
    + apply (settle_submitted P wt it rt o Ht).
    + rewrite Hg. exact Hgo.
    + rewrite Hp. exact Hpath.
    + rewrite Hd. cbn [document set_inflight]. rewrite Hdoc. reflexivity.
Qed.

(** ** The splash screen *)

Lemma load_splash (w : world) (e : element) :
  document w !! "splash-screen" = Some e ->
  load w = log (ESetTimeout (SplashFade "splash-screen") 3000)
             (set_timers (timers w ++ [((now w + 3000)%N, SplashFade "splash-screen")])
                (log (EGetElementById "splash-screen") w)).
Proof.
  intros He. unfold load, report, on_load, js_bind, getElementById.
  rewrite He. reflexivity.
Qed.

(** Without a splash screen, loading starts nothing. *)
Lemma load_without_splash (w : world) :
  document w !! "splash-screen" = None ->
  load w = log (EGetElementById "splash-screen") w.
Proof.
  intros He. unfold load, report, on_load, js_bind, getElementById.
  rewrite He. reflexivity.
Qed.

Lemma run_until_idle (fuel : nat) (t : N) (w : world) :
  next_due t 0 (timers w) = None ->
  run_until fuel t w = Some (set_now (N.max (now w) t) w).
Proof. intros H. destruct fuel; cbn [run_until]; rewrite H; reflexivity. Qed.

Ltac js_run :=
  unfold load, report, on_load, run_callback, js_bind, js_ret, getElementById,
    set_opacity, set_display, setTimeout;
  cbv beta iota;
  cbn [document pathname going defaultPrevented listeners inflight now timers
       trace log set_document set_going set_defaultPrevented set_listeners
       set_inflight set_now set_timers snd fst app delete list_delete].

Ltac timer_step :=
  cbn [run_until next_due
       document pathname going defaultPrevented listeners inflight now timers
       trace log set_document set_going set_defaultPrevented set_listeners
       set_inflight set_now set_timers snd fst app delete list_delete].

(** C5.  When the page has a splash screen, loading it starts one timer,
    due 3000 ms later; when that fires the opacity becomes [0] and a second
    timer starts, due 1000 ms later, which sets [display] to [none].  So
    [d] ms after the load the controller has hidden the element exactly
    when [4000 <= d]: not before 3000 ms, and by 4000 ms. *)
Theorem splash_timing (w : world) (e : element) (d : N) (fuel : nat) :
  document w !! "splash-screen" = Some e ->
  timers w = [] ->
  2 <= fuel ->
  timers (load w) = [((now w + 3000)%N, SplashFade "splash-screen")] /\
  exists w' : world,
    run_until fuel (now w + d) (load w) = Some w' /\
    now w' = (now w + d)%N /\
    document w'
      = <["splash-screen" :=
            if (d <? 3000)%N then e
            else if (d <? 4000)%N then with_opacity "0" e
            else with_display "none" (with_opacity "0" e)]>
          (document w) /\
    el_display <$> document w' !! "splash-screen"
      = Some (if (d <? 4000)%N then el_display e else "none") /\
    trace w'
      = trace w
        ++ [ (now w, EGetElementById "splash-screen");
             (now w, ESetTimeout (SplashFade "splash-screen") 3000) ]
        ++ (if (3000 <=? d)%N
            then [ ((now w + 3000)%N, ESetOpacity "splash-screen" "0");
                   ((now w + 3000)%N, ESetTimeout (SplashHide "splash-screen") 1000) ]
            else [])
        ++ (if (4000 <=? d)%N
            then [ ((now w + 4000)%N, ESetDisplay "splash-screen" "none") ]
            else []).
Proof.
  destruct w as [doc p g dp ls infl t0 tm tr]. cbn [document timers now trace].
  intros He -> Hfuel.
  destruct fuel as [| [| fuel]]; [lia | lia | clear Hfuel].
  split.
  { js_run. rewrite He. js_run. reflexivity. }
  assert (M3 : N.max t0 (t0 + 3000) = (t0 + 3000)%N) by lia.
  assert (M4 : N.max (t0 + 3000) (t0 + 3000 + 1000) = (t0 + 4000)%N) by lia.
  js_run. rewrite He. js_run.
  destruct (N.ltb_spec d 3000) as [Hd3 | Hd3].
  - (* the dwell *)
    assert (L3 : (t0 + 3000 <=? t0 + d)%N = false) by (apply N.leb_gt; lia).
    assert (D4 : (d <? 4000)%N = true) by (apply N.ltb_lt; lia).
    assert (E3 : (3000 <=? d)%N = false) by (apply N.leb_gt; lia).
    assert (E4 : (4000 <=? d)%N = false) by (apply N.leb_gt; lia).
    rewrite D4, E3, E4.
    timer_step. rewrite L3.
    eexists. split; [reflexivity |]. timer_step.
    assert (Hdoc : doc = <["splash-screen" := e]> doc)
      by (symmetry; apply insert_id; exact He).
    split; [lia | split; [exact Hdoc | split]].
    + rewrite He. reflexivity.
    + rewrite <- !app_assoc. reflexivity.
  - assert (L3 : (t0 + 3000 <=? t0 + d)%N = true) by (apply N.leb_le; lia).
    assert (E3 : (3000 <=? d)%N = true) by (apply N.leb_le; lia).
    rewrite E3.
    timer_step. rewrite L3. js_run. rewrite M3.
    destruct (N.ltb_spec d 4000) as [Hd4 | Hd4].
    + (* the fade *)
      assert (L4 : (t0 + 3000 + 1000 <=? t0 + d)%N = false) by (apply N.leb_gt; lia).
      assert (E4 : (4000 <=? d)%N = false) by (apply N.leb_gt; lia).
      rewrite E4.
      timer_step. rewrite L4.
      eexists. split; [reflexivity |]. timer_step.
      assert (Hdoc : alter (with_opacity "0") "splash-screen" doc
                     = <["splash-screen" := with_opacity "0" e]> doc)
        by (apply alter_alt_Some; exact He).
      split; [lia | split; [exact Hdoc | split]].
      * rewrite Hdoc, lookup_insert_eq. reflexivity.
      * rewrite <- !app_assoc. reflexivity.
    + (* hidden *)
      assert (L4 : (t0 + 3000 + 1000 <=? t0 + d)%N = true) by (apply N.leb_le; lia).
      assert (E4 : (4000 <=? d)%N = true) by (apply N.leb_le; lia).
      rewrite E4.
      timer_step. rewrite L4. js_run. rewrite M4.
      rewrite run_until_idle by reflexivity.
      eexists. split; [reflexivity |]. timer_step.
      assert (Hdoc : alter (with_display "none") "splash-screen"
                       (alter (with_opacity "0") "splash-screen" doc)
                     = <["splash-screen" := with_display "none" (with_opacity "0" e)]> doc).
      { rewrite (alter_alt_Some _ doc _ _ He). apply alter_insert_eq. }
      split; [lia | split; [exact Hdoc | split]].
      * rewrite Hdoc, lookup_insert_eq. reflexivity.
      * rewrite <- !app_assoc. reflexivity.
Qed.

(** ** The theorems at sample pages *)

Lemma sample_consignment_renders : renders (VObject sample_consignment).
Proof.
  intros name heading Hin. unfold consignment_fields in Hin.
  repeat (apply elem_of_cons in Hin as [Hin | Hin];
          [injection Hin as -> ->; eexists; reflexivity |]).
  apply elem_of_nil in Hin. destruct Hin.
Defined.

Lemma tracking_success_renders_witness :
  tracking_page sample_tracking_page (Element "DL42" "" "" "") blank /\
  renders (VObject sample_consignment) /\
  exists (w' : world) (html : string),
    settle sample_parse 0 (Fulfilled "success reply")
           (submit "tracking-form" sample_tracking_page) = Some w' /\
    el_innerHTML <$> document w' !! "tracking-result" = Some html /\
    contains html ("<p><strong>Status:</strong> " +:+ "<b>In Transit</b>").
Proof.
  assert (Hp : tracking_page sample_tracking_page (Element "DL42" "" "" "") blank)
    by (repeat split; reflexivity).
  split; [exact Hp | split; [exact sample_consignment_renders |]].
  destruct (tracking_success_renders sample_parse sample_tracking_page
              (Element "DL42" "" "" "") blank "success reply"
              [("status", VString "success"); ("consignment", VObject sample_consignment)]
              sample_consignment Hp eq_refl eq_refl eq_refl
              sample_consignment_renders)
    as (w' & html & Hs & _ & Hd & Hc).
  exists w', html. split; [exact Hs | split].
  - rewrite Hd, lookup_insert_eq. reflexivity.
  - apply (Hc "status" "<p><strong>Status:</strong> ").
    + unfold consignment_fields. apply elem_of_cons. right.
      apply elem_of_cons. left. reflexivity.
    + reflexivity.
Defined.

Lemma tracking_failure_renders_witness :
  tracking_page sample_tracking_page (Element "DL42" "" "" "") blank /\
  ToString (VString "Not found") = Some "Not found" /\
  exists w' : world,
    settle sample_parse 0 (Fulfilled "failure reply")
           (submit "tracking-form" sample_tracking_page) = Some w' /\
    el_innerHTML <$> document w' !! "tracking-result"
      = Some ("<div class=" +:+ dquote +:+ "alert alert-danger" +:+ dquote +:+ ">"
              +:+ "Not found" +:+ "</div>").
Proof.
  assert (Hp : tracking_page sample_tracking_page (Element "DL42" "" "" "") blank)
    by (repeat split; reflexivity).
  split; [exact Hp | split; [reflexivity |]].
  destruct (tracking_failure_renders sample_parse sample_tracking_page
              (Element "DL42" "" "" "") blank "failure reply"
              [("status", VString "failure"); ("message", VString "Not found")]
              (VString "Not found") "Not found" Hp eq_refl
              ltac:(cbn; discriminate) eq_refl eq_refl)
    as (w' & Hs & _ & Hm).
  exists w'. split; [exact Hs | exact (Hm "Not found" eq_refl)].
Defined.

Lemma tracking_error_renders_witness :
  tracking_page sample_tracking_page (Element "DL42" "" "" "") blank /\
  failure_of sample_parse (Rejected "Failed to fetch")
    = Some (FetchRejected "Failed to fetch") /\
  exists w' : world,
    settle sample_parse 0 (Rejected "Failed to fetch")
           (submit "tracking-form" sample_tracking_page) = Some w' /\
    el_innerHTML <$> document w' !! "tracking-result"
      = Some ("<div class=" +:+ dquote +:+ "alert alert-danger" +:+ dquote +:+ ">"
              +:+ "An error occurred. Please try again.</div>").
Proof.
  assert (Hp : tracking_page sample_tracking_page (Element "DL42" "" "" "") blank)
    by (repeat split; reflexivity).
  split; [exact Hp | split; [reflexivity |]].
  destruct (tracking_error_renders sample_parse sample_tracking_page
              (Element "DL42" "" "" "") blank (Rejected "Failed to fetch")
              (FetchRejected "Failed to fetch") Hp eq_refl)
    as (w' & Hs & _ & Hd).
  exists w'. split; [exact Hs |].
  rewrite Hd, lookup_insert_eq. reflexivity.
Defined.

Lemma home_submit_navigates_witness :
  home_page (sample_home_page "ABC123") (Element "ABC123" "" "" "") /\
  going (submit "home-tracking-form" (sample_home_page "ABC123"))
    = Some (ScriptNavigation "/track-consignment/?consignment_number=ABC123").
Proof.
  assert (Hp : home_page (sample_home_page "ABC123") (Element "ABC123" "" "" ""))
    by (split; reflexivity).
  split; [exact Hp |].
  apply (home_submit_navigates (sample_home_page "ABC123")
           (Element "ABC123" "" "" "") Hp ltac:(cbn; discriminate)).
  reflexivity.
Defined.

Lemma splash_timing_witness :
  document sample_splash_page !! "splash-screen" = Some (Element "" "" "1" "flex") /\
  exists w' : world,
    run_until 2 4000 (load sample_splash_page) = Some w' /\
    el_display <$> document w' !! "splash-screen" = Some "none".
Proof.
  split; [reflexivity |].
  destruct (splash_timing sample_splash_page (Element "" "" "1" "flex") 4000 2
              eq_refl eq_refl ltac:(lia))
    as (_ & w' & Hr & _ & _ & Hd & _).
  exists w'. split; [exact Hr | exact Hd].
Defined.

Lemma home_submit_empty_witness :
  home_page (sample_home_page "") blank /\
  going (submit "home-tracking-form" (sample_home_page "")) = None /\
  document (submit "home-tracking-form" (sample_home_page ""))
    = document (sample_home_page "").
Proof.
  assert (Hp : home_page (sample_home_page "") blank) by (split; reflexivity).
  split; [exact Hp |].
  exact (proj2 (home_submit_empty (sample_home_page "") blank Hp eq_refl)).
Defined.

Lemma tracking_submit_fetches_witness :
  tracking_page sample_tracking_page (Element "DL42" "" "" "") blank /\
  requests_since 0 (submit "tracking-form" sample_tracking_page)
    = [Request "GET" "/track-consignment/?consignment_number=DL42"].
Proof.
  assert (Hp : tracking_page sample_tracking_page (Element "DL42" "" "" "") blank)
    by (repeat split; reflexivity).
  split; [exact Hp |].
  exact (proj1 (tracking_submit_fetches sample_parse sample_tracking_page
                  (Element "DL42" "" "" "") blank Hp)).
Defined.

Lemma success_panel_verbatim_witness :
  renders (VObject sample_consignment) /\
  exists html : string,
    on_data (Some "tracking-result") sample_success sample_tracking_page
      = set_innerHTML (Some "tracking-result") html sample_tracking_page /\
    contains html "<b>In Transit</b>".
Proof.
  split; [exact sample_consignment_renders |].
  destruct (success_panel_verbatim "tracking-result" sample_success
              (VObject sample_consignment) sample_tracking_page
              eq_refl eq_refl eq_refl eq_refl sample_consignment_renders)
    as (html & He & _ & Hc).
  exists html. split; [exact He |].
  apply (Hc "status" "<p><strong>Status:</strong> ").
  - unfold consignment_fields. apply elem_of_cons. right.
    apply elem_of_cons. left. reflexivity.
  - reflexivity.
Defined.

Lemma urls_are_concatenations_witness :
  tracking_page sample_tracking_page (Element "DL42" "" "" "") blank /\
  home_page (sample_home_page "ABC123") (Element "ABC123" "" "" "") /\
  req_url <$> requests_since 0 (submit "tracking-form" sample_tracking_page)
    = ["/track-consignment/?consignment_number=DL42"] /\
  query_values "consignment_number" "/track-consignment/?consignment_number=A&B"
    = ["A"].
Proof.
  assert (Ht : tracking_page sample_tracking_page (Element "DL42" "" "" "") blank)
    by (repeat split; reflexivity).
  assert (Hh : home_page (sample_home_page "ABC123") (Element "ABC123" "" "" ""))
    by (split; reflexivity).
  split; [exact Ht | split; [exact Hh |]].
  destruct (urls_are_concatenations sample_tracking_page (Element "DL42" "" "" "") blank
              (sample_home_page "ABC123") (Element "ABC123" "" "" "")
              Ht Hh ltac:(cbn; discriminate))
    as (Hu & _ & _ & Hq & _).
  split; [exact Hu | exact Hq].
Defined.

Lemma submit_cancels_default_witness :
  tracking_page sample_tracking_page (Element "DL42" "" "" "") blank /\
  home_page (sample_home_page "") blank /\
  going (submit "tracking-form" sample_tracking_page) = None /\
  going (submit "home-tracking-form" (sample_home_page "")) = None.
Proof.
  assert (Ht : tracking_page sample_tracking_page (Element "DL42" "" "" "") blank)
    by (repeat split; reflexivity).
  assert (Hh : home_page (sample_home_page "") blank) by (split; reflexivity).
  split; [exact Ht | split; [exact Hh |]].
  destruct (submit_cancels_default sample_parse sample_tracking_page
              (Element "DL42" "" "" "") blank (sample_home_page "") blank Ht Hh)
    as (_ & Hg & _ & He & _).
  split; [exact Hg | exact (He eq_refl)].
Defined.

(** * Further properties of the page script *)

(** ** Every reply, summed up *)

Lemma tracking_reply_total (P : string -> option jsval) (r : string)
    (o : outcome) (w : world) :
  tracking_reply P (Some r) o w
    = match reply_error P o with
      | Some err => on_error (Some r) err w
      | None => set_innerHTML (Some r) (reply_panel P o) w
      end.
Proof.
  destruct o as [reason | body].
  { apply tracking_reply_failure. reflexivity. }
  unfold reply_panel, reply_error.
  destruct (P body) as [data |] eqn:HP.
  2:{ apply tracking_reply_failure. cbn. rewrite HP. reflexivity. }
  assert (E : tracking_reply P (Some r) (Fulfilled body) w
              = js_catch (on_data (Some r) data) (on_error (Some r)) w).
  { unfold tracking_reply, js_catch, js_bind, fetch_settled, response_json, js_ret.
    rewrite HP. reflexivity. }
  rewrite E. unfold js_catch.
  destruct (nullish data) eqn:Hd.
  { unfold on_data, js_bind.
    rewrite (get_property_throws data "status" w Hd). reflexivity. }
  destruct (strict_equals_string (field data "status") "success") eqn:Hs.
  - pose proof (proj1 (strict_equals_string_true _ _) Hs) as Hs'.
    destruct (nullish (field data "consignment")) eqn:Hc.
    + unfold on_data, js_bind.
      rewrite (get_property_ok data "status" w Hd), Hs. cbv beta iota.
      rewrite (get_property_ok data "consignment" w Hd).
      rewrite (success_panel_throws _ w Hc). reflexivity.
    + rewrite (on_data_success _ data w Hd Hs' Hc).
      destruct (success_html (field data "consignment")); reflexivity.
  - pose proof (proj1 (strict_equals_string_false _ _) Hs) as Hs'.
    rewrite (on_data_other _ data w Hd Hs').
    destruct (ToString (field data "message")); reflexivity.
Qed.

(** The same for a request whose result panel was not found: the data
    callback fails at the assignment, if not before, and so does the
    [catch] callback. *)
Lemma tracking_reply_no_panel (P : string -> option jsval) (o : outcome) (w : world) :
  tracking_reply P None o w
    = (Throw (TypeError "innerHTML"),
       log (EConsoleError "Error:"
              match reply_error P o with
              | Some err => err
              | None => TypeError "innerHTML"
              end) w).
Proof.
  destruct o as [reason | body].
  { rewrite (tracking_reply_failure P None (Rejected reason)
               (FetchRejected reason) w eq_refl).
    reflexivity. }
  unfold reply_error.
  destruct (P body) as [data |] eqn:HP.
  2:{ rewrite (tracking_reply_failure P None (Fulfilled body) (SyntaxError body) w).
      - reflexivity.
      - cbn. rewrite HP. reflexivity. }
  assert (E : tracking_reply P None (Fulfilled body) w
              = js_catch (on_data None data) (on_error None) w).
  { unfold tracking_reply, js_catch, js_bind, fetch_settled, response_json, js_ret.
    rewrite HP. reflexivity. }
  rewrite E. unfold js_catch.
  destruct (nullish data) eqn:Hd.
  { unfold on_data, js_bind.
    rewrite (get_property_throws data "status" w Hd). reflexivity. }
  destruct (strict_equals_string (field data "status") "success") eqn:Hs.
  - pose proof (proj1 (strict_equals_string_true _ _) Hs) as Hs'.
    destruct (nullish (field data "consignment")) eqn:Hc.
    + unfold on_data, js_bind.
      rewrite (get_property_ok data "status" w Hd), Hs. cbv beta iota.
      rewrite (get_property_ok data "consignment" w Hd).
      rewrite (success_panel_throws _ w Hc). reflexivity.
    + rewrite (on_data_success _ data w Hd Hs' Hc).
      destruct (success_html (field data "consignment")); reflexivity.
  - pose proof (proj1 (strict_equals_string_false _ _) Hs) as Hs'.
    rewrite (on_data_other _ data w Hd Hs').
    destruct (ToString (field data "message")); reflexivity.
Qed.

(** What settling a request of the tracking form does to a page that has
    the result panel. *)
Lemma settle_at (P : string -> option jsval) (w : world) (i : nat)
    (rq : request) (r : string) (e : element) (o : outcome) :
  inflight w !! i = Some (rq, TrackingReply (Some r)) ->
  document w !! r = Some e ->
  exists w' : world,
    settle P i o w = Some w' /\
    document w' = <[r := with_innerHTML (reply_panel P o) e]> (document w) /\
    inflight w' = delete i (inflight w) /\
    listeners w' = listeners w /\
    going w' = going w /\
    trace w'
      = trace w
        ++ match reply_error P o with
           | Some err => [(now w, EConsoleError "Error:" err)]
           | None => []
           end
        ++ [(now w, ESetInnerHTML r (reply_panel P o))].
Proof.
  intros Hi He. unfold settle. rewrite Hi. cbn [run_continuation].
  eexists. split; [reflexivity |].
  unfold report. rewrite tracking_reply_total.
  assert (Ha : alter (with_innerHTML (reply_panel P o)) r (document w)
               = <[r := with_innerHTML (reply_panel P o) e]> (document w))
    by (apply alter_alt_Some; exact He).
  destruct (reply_error P o) as [err |] eqn:Herr.
  - assert (Hp : reply_panel P o = error_panel).
    { unfold reply_panel. rewrite Herr. reflexivity. }
    rewrite Hp in *.
    unfold on_error, js_bind, console_error, set_innerHTML. world_simpl.
    rewrite Ha, <- app_assoc. repeat split; reflexivity.
  - unfold set_innerHTML. world_simpl. rewrite Ha. repeat split; reflexivity.
Qed.

Lemma submitted_request (w : world) (input result : element) :
  tracking_page w input result ->
  inflight (submit "tracking-form" w) !! length (inflight w)
    = Some (Request "GET" (pathname w +:+ "?consignment_number=" +:+ el_value input),
            TrackingReply (Some "tracking-result")) /\
  inflight (submit "tracking-form" w)
    = inflight w
      ++ [(Request "GET" (pathname w +:+ "?consignment_number=" +:+ el_value input),
           TrackingReply (Some "tracking-result"))] /\
  trace (submit "tracking-form" w)
    = trace w ++ [ (now w, EPreventDefault);
                   (now w, EGetElementById "consignment_number");
                   (now w, EReadValue "consignment_number");
                   (now w, EGetElementById "tracking-result");
                   (now w, EReadPathname);
                   (now w, EFetch (Request "GET"
                                     (pathname w +:+ "?consignment_number="
                                      +:+ el_value input))) ].
Proof.
  intros Hp. rewrite (submit_tracking w input result Hp). world_simpl.
  rewrite lookup_snoc, <- !app_assoc. repeat split; reflexivity.
Qed.

(** A reply whose message, or whose consignment's status, is an object
    with a [toString] key cannot be put into the template: the conversion
    throws, the [catch] callback logs it and shows the fixed message. *)
Example unprintable_replies :
  (effects_since 6 <$>
     settle (fun _ => Some sample_unprintable) 0 (Fulfilled "a reply")
            (submit "tracking-form" sample_tracking_page))
    = Some [ EConsoleError "Error:" NotPrimitive;
             ESetInnerHTML "tracking-result" error_panel ] /\
  (effects_since 6 <$>
     settle (fun _ => Some (VObject
                              [("status", VString "success");
                               ("consignment",
                                VObject [("status",
                                          VArray [VObject [("toString", VNull)]])])]))
            0 (Fulfilled "a reply")
            (submit "tracking-form" sample_tracking_page))
    = Some [ EConsoleError "Error:" NotPrimitive;
             ESetInnerHTML "tracking-result" error_panel ].
Proof. split; vm_compute; reflexivity. Qed.

(** X1.  On the tracking page every reply, whatever it is, ends in exactly
    one assignment to the result panel's [innerHTML]; one [console.error]
    line comes before it exactly when an exception reached the [catch]
    callback (a rejection, a parse failure, or a [TypeError] of reading a
    property or of converting a value to a string), and then the panel is
    the fixed error message. *)
Theorem every_reply_renders_once (P : string -> option jsval) (w : world)
    (input result : element) (o : outcome) :
  tracking_page w input result ->
  exists w' : world,
    settle P (length (inflight w)) o (submit "tracking-form" w) = Some w' /\
    effects_since (length (trace (submit "tracking-form" w))) w'
      = match reply_error P o with
        | Some err => [EConsoleError "Error:" err]
        | None => []
        end
        ++ [ESetInnerHTML "tracking-result" (reply_panel P o)] /\
    document w'
      = <["tracking-result" := with_innerHTML (reply_panel P o) result]> (document w) /\
    (is_Some (reply_error P o) ->
     reply_panel P o
       = "<div class=" +:+ dquote +:+ "alert alert-danger" +:+ dquote +:+ ">"
         +:+ "An error occurred. Please try again.</div>").
Proof.
  intros Hp.
  destruct (submitted_request w input result Hp) as (Hi & _ & _).
  destruct (submit_tracking_frame w input result Hp) as (Hdoc & _).
  assert (Hr : document (submit "tracking-form" w) !! "tracking-result" = Some result)
    by (rewrite Hdoc; apply Hp).
  destruct (settle_at P _ _ _ _ _ o Hi Hr) as (w' & Hs & Hd & _ & _ & _ & Ht).
  exists w'. split; [exact Hs | split; [| split]].
  - unfold effects_since. rewrite Ht, drop_app_length.
    rewrite fmap_app. destruct (reply_error P o); reflexivity.
  - rewrite Hd, Hdoc. reflexivity.
  - intros [err Herr]. unfold reply_panel. rewrite Herr. reflexivity.
Qed.

(** X2.  A reply that parses to [null], or that says ["success"] but
    carries no consignment (the key is missing, or [null]), is not rendered
    as a success: reading a property of nothing throws, the [catch]
    callback logs that [TypeError] and shows the fixed error message. *)
Theorem reply_without_consignment (P : string -> option jsval) (w : world)
    (input result : element) (body : string) (data : jsval) :
  tracking_page w input result ->
  P body = Some data ->
  nullish data = true \/
  (nullish data = false /\
   field data "status" = VString "success" /\
   nullish (field data "consignment") = true) ->
  exists w' : world,
    settle P (length (inflight w)) (Fulfilled body) (submit "tracking-form" w)
      = Some w' /\
    effects_since (length (trace (submit "tracking-form" w))) w'
      = [ EConsoleError "Error:"
            (TypeError (if nullish data then "status" else "consignment_number"));
          ESetInnerHTML "tracking-result" error_panel ] /\
    el_innerHTML <$> document w' !! "tracking-result"
      = Some ("<div class=" +:+ dquote +:+ "alert alert-danger" +:+ dquote +:+ ">"
              +:+ "An error occurred. Please try again.</div>").
Proof.
  intros Hp HP Hcase.
  destruct (submitted_request w input result Hp) as (Hi & _ & _).
  destruct (submit_tracking_frame w input result Hp) as (Hdoc & _).
  assert (Hr : document (submit "tracking-form" w) !! "tracking-result" = Some result)
    by (rewrite Hdoc; apply Hp).
  destruct (settle_at P _ _ _ _ _ (Fulfilled body) Hi Hr)
    as (w' & Hs & Hd & _ & _ & _ & Ht).
  assert (Herr : reply_error P (Fulfilled body)
                 = Some (TypeError (if nullish data then "status"
                                    else "consignment_number"))).
  { unfold reply_error. rewrite HP.
    destruct Hcase as [Hn | (Hn & Hst & Hc)]; rewrite Hn; [reflexivity |].
    rewrite Hst, Hc. reflexivity. }
  assert (Hpanel : reply_panel P (Fulfilled body) = error_panel).
  { unfold reply_panel. rewrite Herr. reflexivity. }
  rewrite Herr, Hpanel in Ht. rewrite Hpanel in Hd.
  exists w'. split; [exact Hs | split].
  - unfold effects_since. rewrite Ht, drop_app_length. reflexivity.
  - rewrite Hd, lookup_insert_eq. reflexivity.
Qed.

(** X3.  A reply that is not a success and has no [message] to show --
    the key is missing, or the reply is not an object at all but a JSON
    string, number, boolean or array -- puts the word [undefined] in the
    failure panel, and logs nothing. *)
Theorem failure_without_message (P : string -> option jsval) (w : world)
    (input result : element) (body : string) (data : jsval) :
  tracking_page w input result ->
  P body = Some data ->
  nullish data = false ->
  field data "status" <> VString "success" ->
  field data "message" = VUndefined ->
  exists w' : world,
    settle P (length (inflight w)) (Fulfilled body) (submit "tracking-form" w)
      = Some w' /\
    effects_since (length (trace (submit "tracking-form" w))) w'
      = [ESetInnerHTML "tracking-result"
           ("<div class=" +:+ dquote +:+ "alert alert-danger" +:+ dquote +:+ ">"
            +:+ "undefined" +:+ "</div>")] /\
    el_innerHTML <$> document w' !! "tracking-result"
      = Some ("<div class=" +:+ dquote +:+ "alert alert-danger" +:+ dquote +:+ ">"
              +:+ "undefined" +:+ "</div>").
Proof.
  intros Hp HP Hn Hst Hm.
  destruct (submitted_request w input result Hp) as (Hi & _ & _).
  destruct (submit_tracking_frame w input result Hp) as (Hdoc & _).
  assert (Hr : document (submit "tracking-form" w) !! "tracking-result" = Some result)
    by (rewrite Hdoc; apply Hp).
  destruct (settle_at P _ _ _ _ _ (Fulfilled body) Hi Hr)
    as (w' & Hs & Hd & _ & _ & _ & Ht).
  apply strict_equals_string_false in Hst.
  assert (Herr : reply_error P (Fulfilled body) = None).
  { unfold reply_error. rewrite HP, Hn, Hst, Hm. reflexivity. }
  assert (Hpanel : reply_panel P (Fulfilled body) = failure_panel "undefined").
  { unfold reply_panel. rewrite Herr, HP, Hst, Hm. reflexivity. }
  rewrite Herr, Hpanel in Ht. rewrite Hpanel in Hd.
  exists w'. split; [exact Hs | split].
  - unfold effects_since. rewrite Ht, drop_app_length. reflexivity.
  - rewrite Hd, lookup_insert_eq. reflexivity.
Qed.

(** ** Missing elements *)

(** X4.  On a tracking page that lacks the result panel the request is
    made all the same; when it ends, nothing is shown anywhere: the
    callbacks fail at the assignment to [innerHTML], the [catch] callback
    logs its line and fails there too, and the browser is left with an
    unhandled [TypeError].  The document stays as it was. *)
Theorem reply_without_panel (P : string -> option jsval) (w : world)
    (input : element) :
  listeners_of "tracking-form" w = [TrackingSubmit] ->
  document w !! "consignment_number" = Some input ->
  document w !! "tracking-result" = None ->
  requests_since (length (trace w)) (submit "tracking-form" w)
    = [Request "GET" (pathname w +:+ "?consignment_number=" +:+ el_value input)] /\
  forall o : outcome,
    exists w' : world,
      settle P (length (inflight w)) o (submit "tracking-form" w) = Some w' /\
      document w' = document w /\
      effects_since (length (trace (submit "tracking-form" w))) w'
        = [ EConsoleError "Error:"
              match reply_error P o with
              | Some err => err
              | None => TypeError "innerHTML"
              end;
            EUncaught (TypeError "innerHTML") ].
Proof.
  intros Hl Hi Hr.
  assert (Hs : submit "tracking-form" w
               = let r := Request "GET" (pathname w +:+ "?consignment_number="
                                         +:+ el_value input) in
                 log (EFetch r)
                   (set_inflight (inflight w ++ [(r, TrackingReply None)])
                      (log EReadPathname
                         (log (EGetElementById "tracking-result")
                            (log (EReadValue "consignment_number")
                               (log (EGetElementById "consignment_number")
                                  (log EPreventDefault
                                     (set_defaultPrevented true w)))))))).
  { unfold submit. rewrite Hl. cbn [foldl].
    js_unfold. cbn. rewrite !Hi. cbn. rewrite !Hr. reflexivity. }
  rewrite Hs. cbv zeta. split.
  - unfold requests_since, effects_since. world_simpl.
    rewrite <- !app_assoc, drop_app_length. reflexivity.
  - intros o. unfold settle. world_simpl. rewrite lookup_snoc, delete_snoc.
    cbn [run_continuation]. eexists. split; [reflexivity |].
    unfold report. rewrite tracking_reply_no_panel. split.
    + reflexivity.
    + unfold effects_since. world_simpl.
      match goal with |- context [drop (length ?t) _] => set (T := t) end.
      rewrite <- (app_assoc T), drop_app_length. reflexivity.
Qed.

(** X5.  On a tracking page that lacks the input the listener still
    cancels the event, then fails reading [value] from [null]: no request
    is made, nothing is shown, the page does not navigate. *)
Theorem tracking_submit_without_input (w : world) :
  listeners_of "tracking-form" w = [TrackingSubmit] ->
  document w !! "consignment_number" = None ->
  effects_since (length (trace w)) (submit "tracking-form" w)
    = [ EPreventDefault; EGetElementById "consignment_number";
        EUncaught (TypeError "value") ] /\
  defaultPrevented (submit "tracking-form" w) = true /\
  inflight (submit "tracking-form" w) = inflight w /\
  going (submit "tracking-form" w) = going w /\
  document (submit "tracking-form" w) = document w.
Proof.
  intros Hl Hi. unfold submit. rewrite Hl. cbn [foldl].
  js_unfold. cbn. rewrite !Hi. cbn.
  unfold effects_since. world_simpl.
  rewrite <- !app_assoc, drop_app_length. repeat split; reflexivity.
Qed.

(** X6.  The same on a homepage that lacks the input: the event is
    cancelled, the listener fails, and no redirect happens. *)
Theorem home_submit_without_input (w : world) :
  listeners_of "home-tracking-form" w = [HomeSubmit] ->
  document w !! "home-tracking-id" = None ->
  effects_since (length (trace w)) (submit "home-tracking-form" w)
    = [ EPreventDefault; EGetElementById "home-tracking-id";
        EUncaught (TypeError "value") ] /\
  defaultPrevented (submit "home-tracking-form" w) = true /\
  going (submit "home-tracking-form" w) = going w /\
  document (submit "home-tracking-form" w) = document w.
Proof.
  intros Hl Hi. unfold submit. rewrite Hl. cbn [foldl].
  js_unfold. cbn. rewrite !Hi. cbn.
  unfold effects_since. world_simpl.
  rewrite <- !app_assoc, drop_app_length. repeat split; reflexivity.
Qed.

(** ** Two requests in flight *)

Lemma lookup_snoc2 {A : Type} (l : list A) (x y : A) :
  (l ++ [x; y]) !! length l = Some x /\
  (l ++ [x; y]) !! S (length l) = Some y /\
  delete (length l) (l ++ [x; y]) = l ++ [y] /\
  delete (S (length l)) (l ++ [x; y]) = l ++ [x].
Proof.
  induction l as [| a l (H1 & H2 & H3 & H4)]; [repeat split; reflexivity |].
  repeat split; simpl; [assumption | assumption | f_equal; assumption
                       | f_equal; assumption].
Qed.

Lemma submit_tracking_again (w : world) (input result : element) :
  tracking_page w input result ->
  tracking_page (submit "tracking-form" w) input result /\
  inflight (submit "tracking-form" (submit "tracking-form" w))
    = inflight w
      ++ [ (Request "GET" (pathname w +:+ "?consignment_number=" +:+ el_value input),
            TrackingReply (Some "tracking-result"));
           (Request "GET" (pathname w +:+ "?consignment_number=" +:+ el_value input),
            TrackingReply (Some "tracking-result")) ] /\
  document (submit "tracking-form" (submit "tracking-form" w)) = document w.
Proof.
  intros Hp.
  destruct (submit_tracking_frame w input result Hp) as (Hd & Hpath & _ & Hl & _).
  assert (Hp' : tracking_page (submit "tracking-form" w) input result).
  { destruct Hp as (H1 & H2 & H3). unfold tracking_page, listeners_of.
    rewrite Hl, Hd. auto. }
  split; [exact Hp' | split].
  - destruct (submitted_request _ input result Hp') as (_ & H2 & _).
    destruct (submitted_request _ input result Hp) as (_ & H1 & _).
    rewrite H2, H1, Hpath, <- app_assoc. reflexivity.
  - rewrite (proj1 (submit_tracking_frame _ input result Hp')). exact Hd.
Qed.

(** X7.  When the form is submitted twice before any reply arrives, both
    requests are in flight, and the panel ends up showing whichever reply
    arrives last: the second one's if the replies come in order, the first
    one's if they come the other way round. *)
Theorem last_reply_wins (P : string -> option jsval) (w : world)
    (input result : element) (o1 o2 : outcome) :
  tracking_page w input result ->
  let w2 := submit "tracking-form" (submit "tracking-form" w) in
  let n := length (inflight w) in
  (exists wa wb : world,
     settle P n o1 w2 = Some wa /\
     settle P n o2 wa = Some wb /\
     el_innerHTML <$> document wb !! "tracking-result" = Some (reply_panel P o2)) /\
  (exists wa wb : world,
     settle P (S n) o2 w2 = Some wa /\
     settle P n o1 wa = Some wb /\
     el_innerHTML <$> document wb !! "tracking-result" = Some (reply_panel P o1)).
Proof.
  intros Hp w2 n.
  destruct (submit_tracking_again w input result Hp) as (_ & Hin & Hdoc).
  fold w2 in Hin, Hdoc.
  set (rq := Request "GET" (pathname w +:+ "?consignment_number=" +:+ el_value input)) in *.
  set (k := TrackingReply (Some "tracking-result")) in *.
  destruct (lookup_snoc2 (inflight w) (rq, k) (rq, k)) as (L1 & L2 & D1 & D2).
  assert (Hr : document w2 !! "tracking-result" = Some result)
    by (rewrite Hdoc; apply Hp).
  split.
  - assert (Hi : inflight w2 !! n = Some (rq, k)) by (rewrite Hin; exact L1).
    destruct (settle_at P w2 n rq _ result o1 Hi Hr) as (wa & Hsa & Hda & Hia & _).
    assert (Hi' : inflight wa !! n = Some (rq, k)).
    { rewrite Hia, Hin. unfold n. rewrite D1. apply lookup_snoc. }
    assert (Hr' : document wa !! "tracking-result"
                  = Some (with_innerHTML (reply_panel P o1) result))
      by (rewrite Hda; apply lookup_insert_eq).
    destruct (settle_at P wa n rq _ _ o2 Hi' Hr') as (wb & Hsb & Hdb & _).
    exists wa, wb. split; [exact Hsa | split; [exact Hsb |]].
    rewrite Hdb, lookup_insert_eq. reflexivity.
  - assert (Hi : inflight w2 !! S n = Some (rq, k)) by (rewrite Hin; exact L2).
    destruct (settle_at P w2 (S n) rq _ result o2 Hi Hr) as (wa & Hsa & Hda & Hia & _).
    assert (Hi' : inflight wa !! n = Some (rq, k)).
    { rewrite Hia, Hin. unfold n. rewrite D2. apply lookup_snoc. }
    assert (Hr' : document wa !! "tracking-result"
                  = Some (with_innerHTML (reply_panel P o2) result))
      by (rewrite Hda; apply lookup_insert_eq).
    destruct (settle_at P wa n rq _ _ o1 Hi' Hr') as (wb & Hsb & Hdb & _).
    exists wa, wb. split; [exact Hsa | split; [exact Hsb |]].
    rewrite Hdb, lookup_insert_eq. reflexivity.
Qed.

(** ** Start-up *)

(** X8.  [DOMContentLoaded] on a page without listeners gives the tracking
    form its listener exactly when the page has the form, and the homepage
    form its listener exactly when the page has that form, whatever other
    elements the page has or lacks; nothing is thrown and no element
    changes.  So a page with the tracking form, its input and its panel
    becomes a tracking page, and one with the homepage form and its input
    a homepage. *)
Theorem DOMContentLoaded_prepares (w : world) :
  listeners w = [] ->
  listeners_of "tracking-form" (exec on_DOMContentLoaded w)
    = match document w !! "tracking-form" with
      | Some _ => [TrackingSubmit]
      | None => []
      end /\
  listeners_of "home-tracking-form" (exec on_DOMContentLoaded w)
    = match document w !! "home-tracking-form" with
      | Some _ => [HomeSubmit]
      | None => []
      end /\
  listeners (exec on_DOMContentLoaded w)
    = match document w !! "tracking-form" with
      | Some _ => [("tracking-form", TrackingSubmit)]
      | None => []
      end
      ++ match document w !! "home-tracking-form" with
         | Some _ => [("home-tracking-form", HomeSubmit)]
         | None => []
         end /\
  fst (on_DOMContentLoaded w) = Ok tt /\
  document (exec on_DOMContentLoaded w) = document w /\
  (forall form input result : element,
     document w !! "tracking-form" = Some form ->
     document w !! "consignment_number" = Some input ->
     document w !! "tracking-result" = Some result ->
     tracking_page (exec on_DOMContentLoaded w) input result) /\
  (forall form input : element,
     document w !! "home-tracking-form" = Some form ->
     document w !! "home-tracking-id" = Some input ->
     home_page (exec on_DOMContentLoaded w) input).
Proof.
  intros Hl.
  destruct (DOMContentLoaded_registers w Hl) as [Ht Hh].
  assert (Hd : document (exec on_DOMContentLoaded w) = document w
               /\ fst (on_DOMContentLoaded w) = Ok tt
               /\ listeners (exec on_DOMContentLoaded w)
                  = match document w !! "tracking-form" with
                    | Some _ => [("tracking-form", TrackingSubmit)]
                    | None => []
                    end
                    ++ match document w !! "home-tracking-form" with
                       | Some _ => [("home-tracking-form", HomeSubmit)]
                       | None => []
                       end).
  { unfold exec, on_DOMContentLoaded, js_bind, js_ret, getElementById, addEventListener.
    destruct (document w !! "tracking-form") eqn:Et; cbn; rewrite ?Et; cbn;
      destruct (document w !! "home-tracking-form"); cbn; rewrite Hl;
      repeat split; reflexivity. }
  destruct Hd as (Hd & Hok & Hls).
  split; [exact Ht | split; [exact Hh | split; [exact Hls | split; [exact Hok |]]]].
  split; [exact Hd | split].
  - intros form input result Hf Hi Hr. unfold tracking_page.
    rewrite Ht, Hf, Hd. auto.
  - intros form input Hf Hi. unfold home_page. rewrite Hh, Hf, Hd. auto.
Qed.

(** X9.  Neither listener does more than its job, on any page, with or
    without the elements it looks for: neither changes an element, a timer
    or a listener; only the tracking listener can start a request, and at
    most one; only the homepage listener can start a navigation, and only
    to a URL of the tracking page. *)
Theorem listeners_frame (l : listener) (w : world) :
  let w' := report (run_listener l) w in
  document w' = document w /\
  timers w' = timers w /\
  listeners w' = listeners w /\
  pathname w' = pathname w /\
  (inflight w' = inflight w \/
   l = TrackingSubmit /\
   exists (v : string) (k : continuation),
     inflight w'
       = inflight w ++ [(Request "GET" (pathname w +:+ "?consignment_number=" +:+ v), k)]) /\
  (going w' = going w \/
   l = HomeSubmit /\
   exists v : string,
     going w'
       = Some (ScriptNavigation ("/track-consignment/?consignment_number=" +:+ v))).
Proof.
  destruct l; js_unfold; cbn [document log set_defaultPrevented].
  - destruct (document w !! "consignment_number") as [e |] eqn:Ei;
      cbn [document log set_defaultPrevented]; rewrite ?Ei; world_simpl.
    + destruct (document w !! "tracking-result"); world_simpl;
        repeat split; try (left; reflexivity);
        right; (split; [reflexivity | eexists; eexists; reflexivity]).
    + repeat split; left; reflexivity.
  - destruct (document w !! "home-tracking-id") as [e |] eqn:Ei;
      cbn [document log set_defaultPrevented]; rewrite ?Ei; world_simpl.
    + destruct (truthy (el_value e)); world_simpl;
        repeat split; try (left; reflexivity);
        right; (split; [reflexivity | eexists; reflexivity]).
    + repeat split; left; reflexivity.
Qed.

(** ** The splash screen, further *)

(** X10.  On a page without a splash screen the [load] listener looks the
    element up and does nothing else: no timer is started, and however
    long one waits nothing changes but the clock. *)
Theorem load_without_splash_is_idle (w : world) (fuel : nat) (t : N) :
  document w !! "splash-screen" = None ->
  timers w = [] ->
  exists w' : world,
    run_until fuel t (load w) = Some w' /\
    effects_since (length (trace w)) w' = [EGetElementById "splash-screen"] /\
    timers w' = [] /\
    document w' = document w /\
    going w' = going w.
Proof.
  intros He Ht. rewrite (load_without_splash w He).
  rewrite run_until_idle by (world_simpl; rewrite Ht; reflexivity).
  eexists. split; [reflexivity |].
  unfold effects_since. world_simpl. rewrite drop_app_length.
  repeat split; try reflexivity. exact Ht.
Qed.

(** X11.  The splash controller keeps at most one timer pending: the fade
    until 3000 ms after the load, the hide from then until 4000 ms, none
    afterwards.  It starts no request and no navigation and registers no
    listener; once the element is hidden, waiting longer changes nothing
    but the clock. *)
Theorem splash_pending_timers (w : world) (e : element) (d : N) (fuel : nat) :
  document w !! "splash-screen" = Some e ->
  timers w = [] ->
  2 <= fuel ->
  exists w' : world,
    run_until fuel (now w + d) (load w) = Some w' /\
    timers w'
      = (if (d <? 3000)%N then [((now w + 3000)%N, SplashFade "splash-screen")]
         else if (d <? 4000)%N then [((now w + 4000)%N, SplashHide "splash-screen")]
         else []) /\
    going w' = going w /\
    inflight w' = inflight w /\
    listeners w' = listeners w /\
    ((4000 <= d)%N ->
     forall (fuel' : nat) (t' : N),
       run_until fuel' t' w' = Some (set_now (N.max (now w') t') w')).
Proof.
  destruct w as [doc p g dp ls infl t0 tm tr].
  cbn [document timers now going inflight listeners].
  intros He -> Hfuel.
  destruct fuel as [| [| fuel]]; [lia | lia | clear Hfuel].
  assert (M3 : N.max t0 (t0 + 3000) = (t0 + 3000)%N) by lia.
  assert (M4 : N.max (t0 + 3000) (t0 + 3000 + 1000) = (t0 + 4000)%N) by lia.
  assert (A4 : (t0 + 3000 + 1000)%N = (t0 + 4000)%N) by lia.
  js_run. rewrite He. js_run.
  destruct (N.ltb_spec d 3000) as [Hd3 | Hd3].
  - assert (L3 : (t0 + 3000 <=? t0 + d)%N = false) by (apply N.leb_gt; lia).
    timer_step. rewrite L3.
    eexists. split; [reflexivity |]. timer_step.
    repeat split; try reflexivity. intros Hd. lia.
  - assert (L3 : (t0 + 3000 <=? t0 + d)%N = true) by (apply N.leb_le; lia).
    timer_step. rewrite L3. js_run. rewrite M3.
    destruct (N.ltb_spec d 4000) as [Hd4 | Hd4].
    + assert (L4 : (t0 + 3000 + 1000 <=? t0 + d)%N = false) by (apply N.leb_gt; lia).
      timer_step. rewrite L4.
      eexists. split; [reflexivity |]. timer_step. rewrite A4.
      repeat split; try reflexivity. intros Hd. lia.
    + assert (L4 : (t0 + 3000 + 1000 <=? t0 + d)%N = true) by (apply N.leb_le; lia).
      timer_step. rewrite L4. js_run. rewrite M4.
      rewrite run_until_idle by reflexivity.
      eexists. split; [reflexivity |]. timer_step.
      repeat split; try reflexivity.
      intros _ fuel' t'. apply run_until_idle. reflexivity.
Qed.

(** ** Values that survive the URL *)

Lemma has_char_append (c : ascii) (s t : string) :
  has_char c (s +:+ t) = has_char c s || has_char c t.
Proof.
  induction s as [| a s IH]; [reflexivity |].
  change (String a s +:+ t) with (String a (s +:+ t)).
  cbn [has_char]. rewrite IH, orb_assoc. reflexivity.
Qed.

Lemma before_absent (c : ascii) (s : string) :
  has_char c s = false -> before c s = s.
Proof.
  induction s as [| a s IH]; [reflexivity |].
  cbn [has_char before]. destruct (Ascii.eqb a c); [discriminate |].
  cbn [orb]. intros H. rewrite (IH H). reflexivity.
Qed.

Lemma split_on_absent (c : ascii) (s : string) :
  has_char c s = false -> split_on c s = [s].
Proof.
  induction s as [| a s IH]; [reflexivity |].
  cbn [has_char split_on]. destruct (Ascii.eqb a c); [discriminate |].
  cbn [orb]. intros H. rewrite (IH H). reflexivity.
Qed.

Lemma form_decode_plain (s : string) :
  has_char "+" s = false ->
  has_char "%" s = false ->
  form_decode s = s.
Proof.
  induction s as [| a s IH]; [reflexivity |].
  cbn [has_char form_decode].
  destruct (Ascii.eqb a "+"); [discriminate |].
  destruct (Ascii.eqb a "%"); [discriminate |].
  cbn [orb]. intros Hp Hc. rewrite (IH Hp Hc). reflexivity.
Qed.

(** An unreserved character is none of the characters that a URL or a
    form-encoded query gives a meaning to. *)
Lemma unreserved_char_other (a c : ascii) :
  unreserved_char a = true -> unreserved_char c = false -> Ascii.eqb a c = false.
Proof.
  intros Ha Hc. apply Ascii.eqb_neq. intros ->. congruence.
Qed.

Lemma unreserved_has_char (c : ascii) (s : string) :
  unreserved_char c = false -> unreserved s = true -> has_char c s = false.
Proof.
  intros Hc. induction s as [| a s IH]; [reflexivity |].
  cbn [unreserved has_char]. intros H.
  apply andb_true_iff in H as [Ha Hs].
  rewrite (unreserved_char_other a c Ha Hc), (IH Hs). reflexivity.
Qed.

(** A server reads back a value without [&], [#], [+] and [%] as it was
    appended. *)
Lemma query_values_plain (p v : string) :
  plain_path p = true ->
  has_char "&" v = false ->
  has_char "#" v = false ->
  has_char "+" v = false ->
  has_char "%" v = false ->
  query_values "consignment_number" (p +:+ "?consignment_number=" +:+ v) = [v].
Proof.
  intros Hp Ha Hh Hplus Hpct. unfold query_values.
  change (p +:+ "?consignment_number=" +:+ v)
    with (p +:+ "?" +:+ "consignment_number=" +:+ v).
  rewrite (url_query_append p _ Hp).
  rewrite before_absent by (rewrite has_char_append, Hh; reflexivity).
  rewrite split_on_absent by (rewrite has_char_append, Ha; reflexivity).
  cbn [omap list_omap].
  change ("consignment_number=" +:+ v) with ("consignment_number" +:+ String "=" v).
  rewrite (before_append "=" "consignment_number" (String "=" v) eq_refl).
  rewrite (after_append "=" "consignment_number" (String "=" v) eq_refl).
  cbn [before after]. rewrite Ascii.eqb_refl.
  replace (form_decode ("consignment_number" +:+ "")) with "consignment_number"
    by (vm_compute; reflexivity).
  rewrite String.eqb_refl, (form_decode_plain v Hplus Hpct). reflexivity.
Qed.

(** X12.  A tracking id made of letters, digits, [-], [.], [_] and [~]
    reaches the server as it was typed: the [consignment_number] that a
    reader of the query finds in the request URL, and in the redirect URL,
    is the typed value, once. *)
Theorem plain_ids_survive (wt : world) (it rt : element)
    (wh : world) (ih : element) :
  tracking_page wt it rt ->
  plain_path (pathname wt) = true ->
  unreserved (el_value it) = true ->
  home_page wh ih ->
  el_value ih <> "" ->
  unreserved (el_value ih) = true ->
  (query_values "consignment_number" ∘ req_url)
    <$> requests_since (length (trace wt)) (submit "tracking-form" wt)
    = [[el_value it]] /\
  exists url : string,
    going (submit "home-tracking-form" wh) = Some (ScriptNavigation url) /\
    query_values "consignment_number" url = [el_value ih].
Proof.
  intros Ht Hp Hu Hhome Hv Hu'. split.
  - rewrite (submit_tracking wt it rt Ht).
    unfold requests_since, effects_since. world_simpl.
    rewrite <- !app_assoc, drop_app_length.
    cbn [fmap list_fmap omap list_omap app snd req_url compose].
    rewrite (query_values_plain _ _ Hp); [reflexivity | ..];
      apply unreserved_has_char; (reflexivity || exact Hu).
  - exists ("/track-consignment/?consignment_number=" +:+ el_value ih). split.
    + rewrite (submit_home wh ih Hhome), (truthy_nonempty _ Hv). reflexivity.
    + change ("/track-consignment/?consignment_number=" +:+ el_value ih)
        with ("/track-consignment/" +:+ "?consignment_number=" +:+ el_value ih).
      apply query_values_plain; [reflexivity | ..];
        apply unreserved_has_char; (reflexivity || exact Hu').
Qed.

(** * Properties of the video pipeline helpers *)

(** X15.  The two scripts agree on the executable: every message the
    checks of the build script throw, the checks of the render script
    throw too, on the same machine and with the same [-BlenderExe].  The
    render script throws in exactly one case more, when the build script's
    checks pass and the scene file is missing; its message then names the
    build script.  So the render script gets to Blender exactly when the
    build script does and the scene file exists. *)
Theorem render_needs_build (Test_Path : string -> bool)
    (BlenderExe_given : option string) :
  (forall m : string,
     build_checks Test_Path BlenderExe_given = Some m ->
     render_checks Test_Path BlenderExe_given = Some m) /\
  (forall m : string,
     render_checks Test_Path BlenderExe_given = Some m ->
     build_checks Test_Path BlenderExe_given = Some m \/
     build_checks Test_Path BlenderExe_given = None /\
     Test_Path "video_pipeline/blender/india_network_scene.blend" = false /\
     m = "Missing video_pipeline/blender/india_network_scene.blend. Run video_pipeline/run_blender_build.ps1 first (and optionally edit in Blender UI).") /\
  (render_checks Test_Path BlenderExe_given = None <->
   build_checks Test_Path BlenderExe_given = None /\
   Test_Path "video_pipeline/blender/india_network_scene.blend" = true).
Proof.
  unfold build_checks, render_checks.
  destruct (param BlenderExe_given "") as [| a exe]; cbn [truthy negb].
  { repeat split; try (intros m H; auto); try discriminate.
    intros [H _]. discriminate H. }
  destruct (Test_Path (String a exe)); cbn [negb].
  2:{ repeat split; try (intros m H; auto); try discriminate.
      intros [H _]. discriminate H. }
  destruct (Test_Path "video_pipeline/blender/india_network_scene.blend");
    cbn [negb].
  - repeat split; try discriminate; auto.
  - repeat split; try discriminate.
    + intros m [= <-]. right. repeat split; reflexivity.
    + intros [_ H]. discriminate H.
Qed.

(** On a machine with Blender but no scene file yet, rendering is refused
    and the checks of the build script pass. *)
Example render_before_build :
  render_checks sample_Test_Path (Some "C:/blender.exe")
    = Some "Missing video_pipeline/blender/india_network_scene.blend. Run video_pipeline/run_blender_build.ps1 first (and optionally edit in Blender UI)." /\
  build_checks sample_Test_Path (Some "C:/blender.exe") = None /\
  build_checks sample_Test_Path None
    = Some "Blender not found on PATH. Re-run with -BlenderExe <full path to blender.exe>".
Proof. repeat split; reflexivity. Qed.

(** ** The further theorems at sample pages *)

Lemma every_reply_renders_once_witness :
  tracking_page sample_tracking_page (Element "DL42" "" "" "") blank /\
  exists w' : world,
    settle sample_parse 0 (Fulfilled "failure reply")
           (submit "tracking-form" sample_tracking_page) = Some w' /\
    effects_since 6 w'
      = [ESetInnerHTML "tracking-result" (failure_panel "Not found")].
Proof.
  assert (Hp : tracking_page sample_tracking_page (Element "DL42" "" "" "") blank)
    by (repeat split; reflexivity).
  split; [exact Hp |].
  destruct (every_reply_renders_once sample_parse sample_tracking_page
              (Element "DL42" "" "" "") blank (Fulfilled "failure reply") Hp)
    as (w' & Hs & He & _).
  exists w'. split; [exact Hs | exact He].
Defined.

Lemma reply_without_consignment_witness :
  tracking_page sample_tracking_page (Element "DL42" "" "" "") blank /\
  nullish (field (VObject [("status", VString "success")]) "consignment") = true /\
  exists w' : world,
    settle (fun _ => Some (VObject [("status", VString "success")])) 0
           (Fulfilled "a reply")
           (submit "tracking-form" sample_tracking_page) = Some w' /\
    effects_since 6 w'
      = [ EConsoleError "Error:" (TypeError "consignment_number");
          ESetInnerHTML "tracking-result" error_panel ].
Proof.
  assert (Hp : tracking_page sample_tracking_page (Element "DL42" "" "" "") blank)
    by (repeat split; reflexivity).
  split; [exact Hp | split; [reflexivity |]].
  destruct (reply_without_consignment
              (fun _ => Some (VObject [("status", VString "success")]))
              sample_tracking_page (Element "DL42" "" "" "") blank "a reply"
              (VObject [("status", VString "success")]) Hp eq_refl
              (or_intror (conj eq_refl (conj eq_refl eq_refl))))
    as (w' & Hs & He & _).
  exists w'. split; [exact Hs | exact He].
Defined.

Lemma failure_without_message_witness :
  tracking_page sample_tracking_page (Element "DL42" "" "" "") blank /\
  field (VNumber "42") "message" = VUndefined /\
  exists w' : world,
    settle (fun _ => Some (VNumber "42")) 0 (Fulfilled "42")
           (submit "tracking-form" sample_tracking_page) = Some w' /\
    el_innerHTML <$> document w' !! "tracking-result"
      = Some ("<div class=" +:+ dquote +:+ "alert alert-danger" +:+ dquote +:+ ">"
              +:+ "undefined" +:+ "</div>").
Proof.
  assert (Hp : tracking_page sample_tracking_page (Element "DL42" "" "" "") blank)
    by (repeat split; reflexivity).
  split; [exact Hp | split; [reflexivity |]].
  destruct (failure_without_message (fun _ => Some (VNumber "42"))
              sample_tracking_page (Element "DL42" "" "" "") blank "42"
              (VNumber "42") Hp eq_refl eq_refl ltac:(cbn; discriminate) eq_refl)
    as (w' & Hs & _ & Hd).
  exists w'. split; [exact Hs | exact Hd].
Defined.

Lemma reply_without_panel_witness :
  document sample_page_without_panel !! "tracking-result" = None /\
  exists w' : world,
    settle sample_parse 0 (Fulfilled "success reply")
           (submit "tracking-form" sample_page_without_panel) = Some w' /\
    document w' = document sample_page_without_panel.
Proof.
  split; [reflexivity |].
  destruct (proj2 (reply_without_panel sample_parse sample_page_without_panel
                     (Element "DL42" "" "" "") eq_refl eq_refl eq_refl)
                  (Fulfilled "success reply"))
    as (w' & Hs & Hd & _).
  exists w'. split; [exact Hs | exact Hd].
Defined.

Lemma tracking_submit_without_input_witness :
  document sample_page_without_input !! "consignment_number" = None /\
  inflight (submit "tracking-form" sample_page_without_input) = [] /\
  defaultPrevented (submit "tracking-form" sample_page_without_input) = true.
Proof.
  split; [reflexivity |].
  destruct (tracking_submit_without_input sample_page_without_input eq_refl eq_refl)
    as (_ & Hp & Hi & _).
  split; [exact Hi | exact Hp].
Defined.

Lemma home_submit_without_input_witness :
  document sample_home_without_input !! "home-tracking-id" = None /\
  going (submit "home-tracking-form" sample_home_without_input) = None /\
  defaultPrevented (submit "home-tracking-form" sample_home_without_input) = true.
Proof.
  split; [reflexivity |].
  destruct (home_submit_without_input sample_home_without_input eq_refl eq_refl)
    as (_ & Hp & Hg & _).
  split; [exact Hg | exact Hp].
Defined.

Lemma last_reply_wins_witness :
  tracking_page sample_tracking_page (Element "DL42" "" "" "") blank /\
  exists wa wb : world,
    settle sample_parse 1 (Fulfilled "success reply")
           (submit "tracking-form" (submit "tracking-form" sample_tracking_page))
      = Some wa /\
    settle sample_parse 0 (Rejected "Failed to fetch") wa = Some wb /\
    el_innerHTML <$> document wb !! "tracking-result" = Some error_panel.
Proof.
  assert (Hp : tracking_page sample_tracking_page (Element "DL42" "" "" "") blank)
    by (repeat split; reflexivity).
  split; [exact Hp |].
  exact (proj2 (last_reply_wins sample_parse sample_tracking_page
                  (Element "DL42" "" "" "") blank
                  (Rejected "Failed to fetch") (Fulfilled "success reply") Hp)).
Defined.

Lemma DOMContentLoaded_prepares_witness :
  listeners sample_fresh_page = [] /\
  tracking_page (exec on_DOMContentLoaded sample_fresh_page) blank blank /\
  listeners_of "home-tracking-form" (exec on_DOMContentLoaded sample_fresh_page) = [].
Proof.
  split; [reflexivity |].
  destruct (DOMContentLoaded_prepares sample_fresh_page eq_refl)
    as (_ & Hh & _ & _ & _ & Ht & _).
  split.
  - exact (Ht blank blank blank eq_refl eq_refl eq_refl).
  - exact Hh.
Defined.

Lemma load_without_splash_is_idle_witness :
  document sample_plain_page !! "splash-screen" = None /\
  exists w' : world,
    run_until 0 10000 (load sample_plain_page) = Some w' /\
    timers w' = [].
Proof.
  split; [reflexivity |].
  destruct (load_without_splash_is_idle sample_plain_page 0 10000 eq_refl eq_refl)
    as (w' & Hr & _ & Ht & _).
  exists w'. split; [exact Hr | exact Ht].
Defined.

Lemma splash_pending_timers_witness :
  document sample_splash_page !! "splash-screen" = Some (Element "" "" "1" "flex") /\
  exists w' : world,
    run_until 2 3500 (load sample_splash_page) = Some w' /\
    timers w' = [(4000%N, SplashHide "splash-screen")].
Proof.
  split; [reflexivity |].
  destruct (splash_pending_timers sample_splash_page (Element "" "" "1" "flex") 3500 2
              eq_refl eq_refl ltac:(lia))
    as (w' & Hr & Ht & _).
  exists w'. split; [exact Hr | exact Ht].
Defined.

Lemma plain_ids_survive_witness :
  tracking_page sample_tracking_page (Element "DL42" "" "" "") blank /\
  home_page (sample_home_page "ABC123") (Element "ABC123" "" "" "") /\
  unreserved "DL42" = true /\
  (query_values "consignment_number" ∘ req_url)
    <$> requests_since 0 (submit "tracking-form" sample_tracking_page)
    = [["DL42"]].
Proof.
  assert (Ht : tracking_page sample_tracking_page (Element "DL42" "" "" "") blank)
    by (repeat split; reflexivity).
  assert (Hh : home_page (sample_home_page "ABC123") (Element "ABC123" "" "" ""))
    by (split; reflexivity).
  split; [exact Ht | split; [exact Hh | split; [reflexivity |]]].
  exact (proj1 (plain_ids_survive sample_tracking_page (Element "DL42" "" "" "") blank
                  (sample_home_page "ABC123") (Element "ABC123" "" "" "")
                  Ht eq_refl eq_refl Hh ltac:(cbn; discriminate) eq_refl)).
Defined.
